(** * Verification of [validate_telco_data] (src/utils/validate_data.py)

    A shallow embedding of the data-quality check of the Telco churn
    pipeline.  The Python function reads a pandas [DataFrame], prints
    diagnostic lines, in its fallback branch overwrites three columns of
    the caller's frame, and returns a pair [(passed, failed_expectations)].

    The embedding keeps these effects explicit: a computation is a function
    from a [World] (the caller's frame and the event log) to a result or an
    exception together with the new world.

    Modelling conventions.
    - A frame is a finite map from column names to columns; a column is the
      list of its cells, a cell is a string, an integer, a float or [None].
    - A Python float is represented by the exact value it denotes: [NaN],
      an infinity, or a rational.  The comparisons the code makes (against
      0, 120 and 200, and between two columns) are exact on floats, so they
      are comparisons of those values.
    - [pd.to_numeric] is taken cell by cell; the way pandas reads a number
      out of a string is a parameter [parse_number] of the development, so
      every theorem holds whatever strings pandas accepts as numbers.  The
      dtype a column ends with is not modelled, only its values. *)

From Stdlib Require Import ZArith QArith Ascii String.
From stdpp Require Import base gmap strings list pretty.

Local Open Scope string_scope.
Local Open Scope list_scope.

(** ** Cells, columns, frames *)

Inductive float :=
  | NaN
  | Inf (negative : bool)
  | Finite (q : Q).

Inductive cell :=
  | VStr (s : string)
  | VInt (z : Z)
  | VFloat (x : float)
  | VNone.

Abbreviation Series := (list cell).
Abbreviation DataFrame := (gmap string (list cell)).

(** The numeric value of a cell of a numeric column; strings and [None]
    have none. *)
Definition as_float (c : cell) : option float :=
  match c with
  | VInt z => Some (Finite (inject_Z z))
  | VFloat x => Some x
  | VStr _ | VNone => None
  end.

(** IEEE comparison on the values: anything against [NaN] is false. *)
Definition float_ltb (x y : float) : bool :=
  match x, y with
  | NaN, _ | _, NaN => false
  | Inf true, Inf true => false
  | Inf true, _ => true
  | _, Inf true => false
  | Inf false, _ => false
  | Finite _, Inf false => true
  | Finite p, Finite q => (Qnum p * QDen q <? Qnum q * QDen p)%Z
  end.

Definition float_leb (x y : float) : bool :=
  match x, y with
  | NaN, _ | _, NaN => false
  | Inf true, _ => true
  | _, Inf true => false
  | _, Inf false => true
  | Inf false, Finite _ => false
  | Finite p, Finite q => (Qnum p * QDen q <=? Qnum q * QDen p)%Z
  end.

Definition of_Z (k : Z) : float := Finite (inject_Z k).

(** [pd.isna] on a cell. *)
Definition isna (c : cell) : bool :=
  match c with
  | VNone | VFloat NaN => true
  | _ => false
  end.

(** ** Effects: the caller's frame, the log, exceptions *)

Inductive exn :=
  | KeyError (column : string)
  | TypeError.

Inductive event :=
  | Stdout (line : string)
  | GetItem (column : string)
  | SetItem (column : string).

Record World := mkWorld {
  frame : DataFrame;
  events : list event
}.

Definition M (A : Type) : Type := World → (exn + A) * World.

#[export] Instance M_ret : MRet M := λ A a w, (inr a, w).

#[export] Instance M_bind : MBind M := λ A B f m w,
  match m w with
  | (inl e, w') => (inl e, w')
  | (inr a, w') => f a w'
  end.

Definition raise {A} (e : exn) : M A := λ w, (inl e, w).

Definition emit (e : event) : M unit :=
  λ w, (inr (), mkWorld (frame w) (events w ++ [e])).

(** [print(line)] *)
Definition print (line : string) : M unit := emit (Stdout line).

(** [df[c]]: the column, or [KeyError] when the frame has none of that
    name. *)
Definition column (c : string) : M Series :=
  λ w, match frame w !! c with
       | Some s => (inr s, w)
       | None => (inl (KeyError c), w)
       end.

Definition getitem (c : string) : M Series := emit (GetItem c);; column c.

(** [df[c] = s]: overwrites the column of the caller's frame. *)
Definition store (c : string) (s : Series) : M unit :=
  λ w, (inr (), mkWorld (<[c := s]> (frame w)) (events w)).

Definition setitem (c : string) (s : Series) : M unit := emit (SetItem c);; store c s.

(** [for x in l: acc = body(x, acc)] *)
Fixpoint for_fold {A B} (l : list A) (body : A → B → M B) (acc : B) : M B :=
  match l with
  | [] => mret acc
  | x :: l' => acc' ← body x acc; for_fold l' body acc'
  end.

(** The projections a caller observes. *)
Definition returned {A} (r : (exn + A) * World) : option A :=
  match r.1 with inr a => Some a | inl _ => None end.

Definition raised {A} (r : (exn + A) * World) : option exn :=
  match r.1 with inl e => Some e | inr _ => None end.

Definition frame_after {A} (r : (exn + A) * World) : DataFrame := frame r.2.

Definition events_after {A} (r : (exn + A) * World) : list event := events r.2.

(** A fresh call on the caller's frame. *)
Definition call {A} (m : M A) (df : DataFrame) : (exn + A) * World :=
  m (mkWorld df []).

(** [runs_to m df a df']: started on the frame [df], whatever was logged
    before, [m] returns [a] without raising, leaves the frame [df'] and
    only adds to the log. *)
Definition runs_to {A} (m : M A) (df : DataFrame) (a : A) (df' : DataFrame) : Prop :=
  ∀ ev, ∃ evs, m (mkWorld df ev) = (inr a, mkWorld df' (ev ++ evs)).

(** ** The pandas operations the validator uses *)

(** [s.isin(values)], element by element: a cell is in the list when it is
    one of its strings. *)
Definition cell_isin (values : list string) (c : cell) : bool :=
  match c with
  | VStr s => bool_decide (s ∈ values)
  | _ => false
  end.

Definition isin (s : Series) (values : list string) : list bool :=
  map (cell_isin values) s.

(** [.all()] and [.any()] of a boolean column. *)
Definition all (bs : list bool) : bool := forallb id bs.
Definition any (bs : list bool) : bool := existsb id bs.

(** [s < k] and [s > k] against an integer scalar.  On a column holding a
    string or [None] pandas raises [TypeError]. *)
Definition cell_lt (k : Z) (c : cell) : option bool :=
  x ← as_float c; Some (float_ltb x (of_Z k)).

Definition cell_gt (k : Z) (c : cell) : option bool :=
  x ← as_float c; Some (float_ltb (of_Z k) x).

Definition series_cmp (cmp : cell → option bool) (s : Series) : M (list bool) :=
  match mapM cmp s with
  | Some bs => mret bs
  | None => raise TypeError
  end.

Definition series_lt (s : Series) (k : Z) : M (list bool) := series_cmp (cell_lt k) s.
Definition series_gt (s : Series) (k : Z) : M (list bool) := series_cmp (cell_gt k) s.

(** Python's list display of strings, as an f-string prints it. *)
Definition py_list (l : list string) : string :=
  "[" +:+ String.concat ", " (map (λ s, "'" +:+ s +:+ "'") l) +:+ "]".

(** ** Great Expectations

    The expectations the validator registers are data of the source; what
    the library answers for them is not.  The library is therefore a value
    [GreatExpectations] the validator receives, present or absent as the
    import at the top of the module succeeds or fails ([GE_AVAILABLE]). *)

Inductive expectation :=
  | expect_column_to_exist (column : string)
  | expect_column_values_to_not_be_null (column : string)
  | expect_column_values_to_be_in_set (column : string) (value_set : list string)
  | expect_column_values_to_be_between (column : string) (min_value max_value : option Z)
  | expect_column_pair_values_A_to_be_greater_than_B
      (column_A column_B : string) (or_equal : bool) (mostly : Q).

(** The name a result carries in ["expectation_config"]["expectation_type"]:
    the name of the method that registered the expectation. *)
Definition expectation_type (e : expectation) : string :=
  match e with
  | expect_column_to_exist _ => "expect_column_to_exist"
  | expect_column_values_to_not_be_null _ => "expect_column_values_to_not_be_null"
  | expect_column_values_to_be_in_set _ _ => "expect_column_values_to_be_in_set"
  | expect_column_values_to_be_between _ _ _ => "expect_column_values_to_be_between"
  | expect_column_pair_values_A_to_be_greater_than_B _ _ _ _ =>
      "expect_column_pair_values_A_to_be_greater_than_B"
  end.

Record ExpectationResult := mkResult {
  result_type : string;
  result_success : bool
}.

Record SuiteResult := mkSuiteResult {
  suite_success : bool;
  suite_results : list ExpectationResult
}.

Record GreatExpectations := mkGE {
  ge_validate : DataFrame → list expectation → SuiteResult
}.

(** Lines 72-77: [TotalCharges >= MonthlyCharges] on 95% of the rows. *)
Definition consistency_expectation : expectation :=
  expect_column_pair_values_A_to_be_greater_than_B
    "TotalCharges" "MonthlyCharges" true (95 # 100).

(** The expectations of lines 37-77, in the order they are registered. *)
Definition telco_suite : list expectation :=
  [ expect_column_to_exist "customerID";
    expect_column_values_to_not_be_null "customerID";
    expect_column_to_exist "gender";
    expect_column_to_exist "Partner";
    expect_column_to_exist "Dependents";
    expect_column_to_exist "PhoneService";
    expect_column_to_exist "InternetService";
    expect_column_to_exist "Contract";
    expect_column_to_exist "tenure";
    expect_column_to_exist "MonthlyCharges";
    expect_column_to_exist "TotalCharges";
    expect_column_values_to_be_in_set "gender" ["Male"; "Female"];
    expect_column_values_to_be_in_set "Partner" ["Yes"; "No"];
    expect_column_values_to_be_in_set "Dependents" ["Yes"; "No"];
    expect_column_values_to_be_in_set "PhoneService" ["Yes"; "No"];
    expect_column_values_to_be_in_set "Contract" ["Month-to-month"; "One year"; "Two year"];
    expect_column_values_to_be_in_set "InternetService" ["DSL"; "Fiber optic"; "No"];
    expect_column_values_to_be_between "tenure" (Some 0%Z) (Some 120%Z);
    expect_column_values_to_be_between "MonthlyCharges" (Some 0%Z) (Some 200%Z);
    expect_column_values_to_be_between "TotalCharges" (Some 0%Z) None;
    expect_column_values_to_not_be_null "tenure";
    expect_column_values_to_not_be_null "MonthlyCharges";
    consistency_expectation ].

Definition required_columns : list string :=
  [ "customerID"; "gender"; "Partner"; "Dependents";
    "PhoneService"; "InternetService"; "Contract";
    "tenure"; "MonthlyCharges"; "TotalCharges" ].

(** The columns line 116 coerces. *)
Definition numeric_columns : list string :=
  [ "tenure"; "MonthlyCharges"; "TotalCharges" ].

(** The identifiers the fallback can put in its list. *)
Definition fallback_identifiers : list string :=
  [ "missing_required_columns"; "gender_invalid"; "Partner_invalid";
    "Dependents_invalid"; "PhoneService_invalid"; "contract_invalid";
    "internet_invalid"; "tenure_range"; "monthly_charges_range";
    "total_charges_negative" ].

(** ** The validator *)

Section Validator.

(** How [pd.to_numeric] reads a string: the number, or nothing. *)
Variable parse_number : string → option float.

(** The optional import: [Some] library when [GE_AVAILABLE]. *)
Variable great_expectations : option GreatExpectations.

(** [pd.to_numeric(s, errors="coerce")] on one cell: numbers stay, a
    string is read as a number, and what cannot be read becomes [NaN]. *)
Definition to_numeric_cell (c : cell) : cell :=
  match c with
  | VInt z => VInt z
  | VFloat x => VFloat x
  | VStr s => VFloat (default NaN (parse_number s))
  | VNone => VFloat NaN
  end.

Definition to_numeric (s : Series) : Series := map to_numeric_cell s.

(** [df.columns] *)
Definition columns : M (gset string) := λ w, (inr (dom (frame w)), w).

(** [PandasDataset(df)]: the dataset the expectations run on. *)
Definition PandasDataset : M DataFrame := λ w, (inr (frame w), w).

(** [if not df[col].isin(allowed).all(): failed.append(name)] *)
Definition check_isin (col : string) (allowed : list string) (name : string)
    (failed : list string) : M (list string) :=
  s ← getitem col;
  mret (if all (isin s allowed) then failed else failed ++ [name]).

(** [(df[col] < k).any()] and [(df[col] > k).any()] *)
Definition any_lt (col : string) (k : Z) : M bool :=
  s ← getitem col; bs ← series_lt s k; mret (any bs).

Definition any_gt (col : string) (k : Z) : M bool :=
  s ← getitem col; bs ← series_gt s k; mret (any bs).

(** Python's [a or b]: [b] is evaluated only when [a] is false. *)
Definition py_or (a b : M bool) : M bool :=
  x ← a; if x : bool then mret true else b.

(** Lines 82-85: the types of the expectations that did not succeed. *)
Definition failed_expectation_types (results : SuiteResult) : list string :=
  map result_type
      (List.filter (λ r, negb (result_success r)) (suite_results results)).

(** Lines 21-95: the branch taken when Great Expectations is there. *)
Definition validate_with_ge (lib : GreatExpectations) : M (bool * list string) :=
  print "🔍 Starting data validation with Great Expectations...";;
  ge_df ← PandasDataset;
  print "   📋 Validating schema and required columns...";;
  print "   💼 Validating business logic constraints...";;
  print "   📊 Validating numeric ranges and business constraints...";;
  print "   🔗 Validating data consistency...";;
  print "   ⚙️  Running complete validation suite...";;
  let results := ge_validate lib ge_df telco_suite in
  let failed_expectations := failed_expectation_types results in
  let total_checks := length (suite_results results) in
  let passed_checks := (total_checks - length failed_expectations)%nat in
  if suite_success results then
    print ("✅ Data validation PASSED: " +:+ pretty passed_checks +:+ "/"
           +:+ pretty total_checks +:+ " checks successful");;
    mret (true, [])
  else
    print ("❌ Data validation FAILED: " +:+ pretty (length failed_expectations)
           +:+ "/" +:+ pretty total_checks +:+ " checks failed");;
    print ("   Failed expectations: " +:+ py_list failed_expectations);;
    mret (false, failed_expectations).

(** [[c for c in required_columns if c not in df.columns]] *)
Definition missing_columns (cols : gset string) : list string :=
  List.filter (λ c, negb (bool_decide (c ∈ cols))) required_columns.

(** Lines 104-113, "Basic value checks". *)
Definition basic_value_checks (failed : list string) : M (list string) :=
  failed ← check_isin "gender" ["Male"; "Female"] "gender_invalid" failed;
  failed ← for_fold ["Partner"; "Dependents"; "PhoneService"]
             (λ col, check_isin col ["Yes"; "No"] (col +:+ "_invalid")) failed;
  failed ← check_isin "Contract" ["Month-to-month"; "One year"; "Two year"]
             "contract_invalid" failed;
  check_isin "InternetService" ["DSL"; "Fiber optic"; "No"]
    "internet_invalid" failed.

(** Lines 115-117, "Coerce numeric columns": each column is read, coerced
    and written back into the frame the caller passed. *)
Definition coerce_numeric_columns : M unit :=
  for_fold numeric_columns
    (λ col (_ : unit), s ← getitem col; setitem col (to_numeric s)) ().

(** Lines 119-125, "Numeric ranges". *)
Definition numeric_ranges (failed : list string) : M (list string) :=
  b ← py_or (any_lt "tenure" 0) (any_gt "tenure" 120);
  let failed := if b : bool then failed ++ ["tenure_range"] else failed in
  b ← py_or (any_lt "MonthlyCharges" 0) (any_gt "MonthlyCharges" 200);
  let failed := if b : bool then failed ++ ["monthly_charges_range"] else failed in
  b ← any_lt "TotalCharges" 0;
  let failed := if b : bool then failed ++ ["total_charges_negative"] else failed in
  mret failed.

(** Lines 97-132: the fallback on plain pandas. *)
Definition validate_fallback : M (bool * list string) :=
  print "⚠️ Great Expectations not available; running simplified pandas checks.";;
  cols ← columns;
  let missing_cols := missing_columns cols in
  match missing_cols with
  | _ :: _ =>
      print ("❌ Missing required columns: " +:+ py_list missing_cols);;
      mret (false, ["missing_required_columns"])
  | [] =>
      failed ← basic_value_checks [];
      coerce_numeric_columns;;
      failed ← numeric_ranges failed;
      match failed with
      | _ :: _ =>
          print ("❌ Data validation FAILED (fallback): " +:+ py_list failed);;
          mret (false, failed)
      | [] =>
          print "✅ Data validation PASSED (fallback checks)";;
          mret (true, [])
      end
  end.

Definition validate_telco_data : M (bool * list string) :=
  match great_expectations with
  | Some lib => validate_with_ge lib
  | None => validate_fallback
  end.


(** *** What the fallback computes, in closed form

    The definitions below are not part of the program: they name the
    frame the fallback leaves behind and the list it returns, so that the
    theorems can be stated; [validate_fallback_present] relates them to
    the program. *)

(** The value a cell has once its column went through [to_numeric]. *)
Definition numeric_value (c : cell) : float :=
  default NaN (as_float (to_numeric_cell c)).

(** [df[c]] as a value, the empty column when there is none. *)
Definition col (df : DataFrame) (c : string) : Series := default [] (df !! c).

Definition coerce_frame (df : DataFrame) : DataFrame :=
  <["TotalCharges" := to_numeric (col df "TotalCharges")]>
    (<["MonthlyCharges" := to_numeric (col df "MonthlyCharges")]>
       (<["tenure" := to_numeric (col df "tenure")]> df)).

Definition has_required_columns (df : DataFrame) : bool :=
  forallb (λ c, bool_decide (is_Some (df !! c))) required_columns.

(** The same as a proposition: the frame has the ten required columns. *)
Definition complete (df : DataFrame) : Prop :=
  ∀ c, c ∈ required_columns → is_Some (df !! c).

Definition flag (b : bool) (name : string) : list string :=
  if b then [name] else [].

Definition some_outside (allowed : list string) (s : Series) : bool :=
  negb (forallb (cell_isin allowed) s).

Definition some_below (k : Z) (s : Series) : bool :=
  existsb (λ v, float_ltb (numeric_value v) (of_Z k)) s.

Definition some_above (k : Z) (s : Series) : bool :=
  existsb (λ v, float_ltb (of_Z k) (numeric_value v)) s.

Definition value_failures (df : DataFrame) : list string :=
  flag (some_outside ["Male"; "Female"] (col df "gender")) "gender_invalid"
  ++ flag (some_outside ["Yes"; "No"] (col df "Partner")) "Partner_invalid"
  ++ flag (some_outside ["Yes"; "No"] (col df "Dependents")) "Dependents_invalid"
  ++ flag (some_outside ["Yes"; "No"] (col df "PhoneService")) "PhoneService_invalid"
  ++ flag (some_outside ["Month-to-month"; "One year"; "Two year"] (col df "Contract"))
       "contract_invalid"
  ++ flag (some_outside ["DSL"; "Fiber optic"; "No"] (col df "InternetService"))
       "internet_invalid".

Definition range_failures (df : DataFrame) : list string :=
  flag (some_below 0 (col df "tenure") || some_above 120 (col df "tenure"))
    "tenure_range"
  ++ flag (some_below 0 (col df "MonthlyCharges")
           || some_above 200 (col df "MonthlyCharges")) "monthly_charges_range"
  ++ flag (some_below 0 (col df "TotalCharges")) "total_charges_negative".

Definition fallback_failures (df : DataFrame) : list string :=
  value_failures df ++ range_failures df.

Definition verdict (failed : list string) : bool * list string :=
  match failed with
  | [] => (true, [])
  | _ :: _ => (false, failed)
  end.

(** *** The rules of the fallback, as the specification words them *)

(** Some row's value lies outside the allowed set. *)
Definition outside_domain (df : DataFrame) (c : string) (allowed : list string) : Prop :=
  ∃ v, v ∈ col df c ∧ cell_isin allowed v = false.

(** Some row's number is below, or above, the bound. *)
Definition below (df : DataFrame) (c : string) (k : Z) : Prop :=
  ∃ v, v ∈ col df c ∧ float_ltb (numeric_value v) (of_Z k) = true.

Definition above (df : DataFrame) (c : string) (k : Z) : Prop :=
  ∃ v, v ∈ col df c ∧ float_ltb (of_Z k) (numeric_value v) = true.

(** Each identifier of the fallback with the rule whose violation it
    reports. *)
Definition fallback_rules (df : DataFrame) : list (string * Prop) :=
  [ ("gender_invalid", outside_domain df "gender" ["Male"; "Female"]);
    ("Partner_invalid", outside_domain df "Partner" ["Yes"; "No"]);
    ("Dependents_invalid", outside_domain df "Dependents" ["Yes"; "No"]);
    ("PhoneService_invalid", outside_domain df "PhoneService" ["Yes"; "No"]);
    ("contract_invalid",
      outside_domain df "Contract" ["Month-to-month"; "One year"; "Two year"]);
    ("internet_invalid",
      outside_domain df "InternetService" ["DSL"; "Fiber optic"; "No"]);
    ("tenure_range", below df "tenure" 0 ∨ above df "tenure" 120);
    ("monthly_charges_range",
      below df "MonthlyCharges" 0 ∨ above df "MonthlyCharges" 200);
    ("total_charges_negative", below df "TotalCharges" 0) ].

End Validator.

(** ** What the expectations answer

    The Great Expectations library is not part of the repository.  The
    outcome of each registered expectation is taken from section 4.1,
    Mode A, of the specification. *)

(** Modelled from the spec: the range check of Great Expectations on one
    value, which is missing from the sources: the value is a number and
    lies within the bounds that are given ("tenure in [0,120]", "TotalCharges
    >= 0 (no upper bound)"). *)
Definition cell_between (min_value max_value : option Z) (c : cell) : bool :=
  match as_float c with
  | Some x =>
      from_option (λ k, float_leb (of_Z k) x) true min_value
      && from_option (λ k, float_leb x (of_Z k)) true max_value
  | None => false
  end.

(** Modelled from the spec: the row-wise comparison of the pair expectation
    of Great Expectations, missing from the sources: [A >= B] ("with
    equality allowed"), or [A > B], between two numbers. *)
Definition row_A_greater_than_B (or_equal : bool) (row : cell * cell) : bool :=
  match as_float row.1, as_float row.2 with
  | Some a, Some b => if or_equal then float_leb b a else float_ltb b a
  | _, _ => false
  end.

(** Modelled from the spec: the [mostly] threshold of Great Expectations,
    missing from the sources: the rule "must hold for at least 95% of rows",
    that is [satisfying / total >= mostly], written without the division. *)
Definition at_least (mostly : Q) (satisfying total : nat) : bool :=
  (Qnum mostly * Z.of_nat total <=? Z.of_nat satisfying * QDen mostly)%Z.

(** Modelled from the spec: what Great Expectations, missing from the
    sources, answers for one expectation (section 4.1, Mode A, steps 1-4):
    the column exists; the column has no null value; every value of the
    column belongs to the allowed set; every value of the column is within
    the range; the pair comparison holds for at least the fraction [mostly]
    of the rows. *)
Definition spec_expectation (df : DataFrame) (e : expectation) : bool :=
  match e with
  | expect_column_to_exist c => bool_decide (is_Some (df !! c))
  | expect_column_values_to_not_be_null c =>
      from_option (forallb (λ v, negb (isna v))) false (df !! c)
  | expect_column_values_to_be_in_set c value_set =>
      from_option (λ s, all (isin s value_set)) false (df !! c)
  | expect_column_values_to_be_between c min_value max_value =>
      from_option (forallb (cell_between min_value max_value)) false (df !! c)
  | expect_column_pair_values_A_to_be_greater_than_B a b or_equal mostly =>
      match df !! a, df !! b with
      | Some sa, Some sb =>
          let rows := zip sa sb in
          at_least mostly
            (length (List.filter (row_A_greater_than_B or_equal) rows))
            (length rows)
      | _, _ => false
      end
  end.

(** Modelled from the spec: [validate()] of Great Expectations, missing from
    the sources: one result per registered expectation, and success when
    all of them succeed (section 4.1, Mode A, step 5). *)
Definition spec_validate (df : DataFrame) (suite : list expectation) : SuiteResult :=
  let results :=
    map (λ e, mkResult (expectation_type e) (spec_expectation df e)) suite in
  mkSuiteResult (forallb result_success results) results.

(** Modelled from the spec: the library, as the specification describes it. *)
Definition spec_ge : GreatExpectations := mkGE spec_validate.

(** What every Great Expectations report satisfies: the suite succeeds
    exactly when each of its results does. *)
Definition coherent (r : SuiteResult) : Prop :=
  suite_success r = forallb result_success (suite_results r).

(** ** The data model of the specification (section 3)

    A dataset is valid when every required column is there, every
    categorical value is one of the allowed ones, [customerID] is never
    null, the three numbers are within their bounds on every row, and
    [TotalCharges >= MonthlyCharges] on at least 95% of the rows. *)

Definition rows_A_B (df : DataFrame) (a b : string) : list (cell * cell) :=
  zip (default [] (df !! a)) (default [] (df !! b)).

Definition valid_dataset (df : DataFrame) : bool :=
  let column c := default [] (df !! c) in
  forallb (λ c, bool_decide (is_Some (df !! c))) required_columns
  && forallb (λ v, negb (isna v)) (column "customerID")
  && forallb (cell_isin ["Male"; "Female"]) (column "gender")
  && forallb (cell_isin ["Yes"; "No"]) (column "Partner")
  && forallb (cell_isin ["Yes"; "No"]) (column "Dependents")
  && forallb (cell_isin ["Yes"; "No"]) (column "PhoneService")
  && forallb (cell_isin ["Month-to-month"; "One year"; "Two year"]) (column "Contract")
  && forallb (cell_isin ["DSL"; "Fiber optic"; "No"]) (column "InternetService")
  && forallb (cell_between (Some 0%Z) (Some 120%Z)) (column "tenure")
  && forallb (cell_between (Some 0%Z) (Some 200%Z)) (column "MonthlyCharges")
  && forallb (cell_between (Some 0%Z) None) (column "TotalCharges")
  && (let rows := rows_A_B df "TotalCharges" "MonthlyCharges" in
      (95 * length rows <=? 100 * length (List.filter (row_A_greater_than_B true) rows))%nat).

(** ** A reader of decimal literals

    An instance of [parse_number] to compute with: an optional sign, digits
    with an optional fractional part, blanks around.  pandas reads these
    strings as the same numbers (and reads more: exponents, "inf"). *)

Definition digit_of (a : ascii) : option Z :=
  let n := nat_of_ascii a in
  if (48 <=? n)%nat && (n <=? 57)%nat then Some (Z.of_nat (n - 48)) else None.

Fixpoint read_digits (l : list ascii) (acc : Z) (n : nat) : Z * nat * list ascii :=
  match l with
  | a :: l' =>
      match digit_of a with
      | Some d => read_digits l' (10 * acc + d)%Z (S n)
      | None => (acc, n, l)
      end
  | [] => (acc, n, [])
  end.

Definition is_blank (a : ascii) : bool := bool_decide (a = " "%char).

Fixpoint lstrip (l : list ascii) : list ascii :=
  match l with
  | a :: l' => if is_blank a then lstrip l' else l
  | [] => []
  end.

Definition strip (l : list ascii) : list ascii := rev (lstrip (rev (lstrip l))).

Definition parse_unsigned (l : list ascii) : option Q :=
  let '(i, ni, rest) := read_digits l 0%Z 0%nat in
  match rest with
  | [] => if (ni =? 0)%nat then None else Some (inject_Z i)
  | a :: rest' =>
      if bool_decide (a = "."%char) then
        let '(f, nf, rest'') := read_digits rest' 0%Z 0%nat in
        match rest'' with
        | [] =>
            if (ni + nf =? 0)%nat then None
            else let scale := (10 ^ Z.of_nat nf)%Z in
                 Some (Qmake (i * scale + f) (Z.to_pos scale))
        | _ :: _ => None
        end
      else None
  end.

Definition parse_decimal (s : string) : option float :=
  match strip (list_ascii_of_string s) with
  | a :: l =>
      if bool_decide (a = "-"%char) then q ← parse_unsigned l; Some (Finite (Qopp q))
      else if bool_decide (a = "+"%char) then Finite <$> parse_unsigned l
      else Finite <$> parse_unsigned (a :: l)
  | [] => None
  end.

(** ** The scenarios of the specification *)

(** A frame of the ten required columns, from its rows. *)
Record customer := mkCustomer {
  customerID : cell; gender : cell; Partner : cell; Dependents : cell;
  PhoneService : cell; InternetService : cell; Contract : cell;
  tenure : cell; MonthlyCharges : cell; TotalCharges : cell
}.

Definition telco_frame (rows : list customer) : DataFrame :=
  list_to_map
    [ ("customerID", map customerID rows); ("gender", map gender rows);
      ("Partner", map Partner rows); ("Dependents", map Dependents rows);
      ("PhoneService", map PhoneService rows);
      ("InternetService", map InternetService rows);
      ("Contract", map Contract rows); ("tenure", map tenure rows);
      ("MonthlyCharges", map MonthlyCharges rows);
      ("TotalCharges", map TotalCharges rows) ].

Definition sample_customer : customer :=
  mkCustomer (VStr "1") (VStr "Male") (VStr "Yes") (VStr "No") (VStr "Yes")
    (VStr "Fiber optic") (VStr "Month-to-month")
    (VInt 5) (VFloat (Finite (7035 # 100))) (VFloat (Finite (35075 # 100))).

Definition with_TotalCharges (v : cell) (c : customer) : customer :=
  mkCustomer (customerID c) (gender c) (Partner c) (Dependents c) (PhoneService c)
    (InternetService c) (Contract c) (tenure c) (MonthlyCharges c) v.

Definition with_gender (v : cell) (c : customer) : customer :=
  mkCustomer (customerID c) v (Partner c) (Dependents c) (PhoneService c)
    (InternetService c) (Contract c) (tenure c) (MonthlyCharges c) (TotalCharges c).

Definition with_Contract (v : cell) (c : customer) : customer :=
  mkCustomer (customerID c) (gender c) (Partner c) (Dependents c) (PhoneService c)
    (InternetService c) v (tenure c) (MonthlyCharges c) (TotalCharges c).

Definition with_tenure (v : cell) (c : customer) : customer :=
  mkCustomer (customerID c) (gender c) (Partner c) (Dependents c) (PhoneService c)
    (InternetService c) (Contract c) v (MonthlyCharges c) (TotalCharges c).

(** Scenario 1: the sample row alone. *)
Definition scenario_1 : DataFrame := telco_frame [sample_customer].

(** Scenario 2: the same row with [gender = "Other"]. *)
Definition scenario_2 : DataFrame :=
  telco_frame [with_gender (VStr "Other") sample_customer].

(** Scenario 4: no [Contract] column. *)
Definition scenario_4 : DataFrame := delete "Contract" scenario_1.

(** The sample row with [TotalCharges] as text, as a CSV reader that met a
    blank in the column leaves it. *)
Definition text_charges : DataFrame :=
  telco_frame [with_TotalCharges (VStr "350.75") sample_customer].

(** Three rows, each breaking another rule. *)
Definition several_violations : DataFrame :=
  telco_frame [ with_gender (VStr "Other") sample_customer;
                with_Contract (VStr "Weekly") sample_customer;
                with_tenure (VInt 150) sample_customer ].

(** [n] rows of which the last [k] have [TotalCharges = 10 < 70.35]. *)
Definition inconsistent_rows (n k : nat) : list customer :=
  replicate (n - k) sample_customer
  ++ replicate k (with_TotalCharges (VInt 10) sample_customer).

(** ** Definitions for the further properties

    Nothing below is part of the program: these name what the further
    theorems speak about (the columns the fallback reads, the exact log of
    a call, the shape of a report). *)

(** The columns the fallback reads (lines 105-124): the required ones but
    [customerID]. *)
Definition checked_columns : list string :=
  [ "gender"; "Partner"; "Dependents"; "PhoneService"; "Contract";
    "InternetService"; "tenure"; "MonthlyCharges"; "TotalCharges" ].

(** [runs_log m df a df' evs]: as [runs_to], with the events [m] adds to
    the log. *)
Definition runs_log {A} (m : M A) (df : DataFrame) (a : A) (df' : DataFrame)
    (evs : list event) : Prop :=
  ∀ ev, m (mkWorld df ev) = (inr a, mkWorld df' (ev ++ evs)).

(** The cell is a number (an [int] or a [float], [NaN] included). *)
Definition is_number (c : cell) : bool :=
  match c with
  | VInt _ | VFloat _ => true
  | VStr _ | VNone => false
  end.

(** The columns a log writes to, in order, and the columns it reads. *)
Definition writes (evs : list event) : list string :=
  omap (λ e, match e with SetItem c => Some c | _ => None end) evs.

Definition reads (evs : list event) : list string :=
  omap (λ e, match e with GetItem c => Some c | _ => None end) evs.

(** The names a Great Expectations result of the suite can carry. *)
Definition expectation_types : list string :=
  [ "expect_column_to_exist"; "expect_column_values_to_not_be_null";
    "expect_column_values_to_be_in_set"; "expect_column_values_to_be_between";
    "expect_column_pair_values_A_to_be_greater_than_B" ].

(** The report is about the suite: each result carries the type of an
    expectation that was registered. *)
Definition report_of_suite (r : SuiteResult) : bool :=
  forallb (λ x, bool_decide (result_type x ∈ map expectation_type telco_suite))
    (suite_results r).

Section FallbackLog.

Variable parse_number : string → option float.

(** The line the fallback prints last (lines 127-131). *)
Definition final_line (failed : list string) : string :=
  match failed with
  | [] => "✅ Data validation PASSED (fallback checks)"
  | _ :: _ => "❌ Data validation FAILED (fallback): " +:+ py_list failed
  end.

(** The reads of [(df[c] < lo).any() or (df[c] > hi).any()]: the second
    comparison reads the column again, when the first found nothing. *)
Definition or_reads (found : bool) (c : string) : list event :=
  if found then [GetItem c] else [GetItem c; GetItem c].

(** The log of a call of the fallback on a frame with the ten columns. *)
Definition fallback_log (df : DataFrame) : list event :=
  [ Stdout "⚠️ Great Expectations not available; running simplified pandas checks.";
    GetItem "gender"; GetItem "Partner"; GetItem "Dependents";
    GetItem "PhoneService"; GetItem "Contract"; GetItem "InternetService";
    GetItem "tenure"; SetItem "tenure";
    GetItem "MonthlyCharges"; SetItem "MonthlyCharges";
    GetItem "TotalCharges"; SetItem "TotalCharges" ]
  ++ or_reads (some_below parse_number 0 (col df "tenure")) "tenure"
  ++ or_reads (some_below parse_number 0 (col df "MonthlyCharges")) "MonthlyCharges"
  ++ [ GetItem "TotalCharges";
       Stdout (final_line (fallback_failures parse_number df)) ].

End FallbackLog.

(** A frame with the ten columns and no row. *)
Definition no_rows : DataFrame := telco_frame [].

(** The sample row without an identifier. *)
Definition null_customerID : DataFrame := <["customerID" := [VNone]]> scenario_1.

(** The sample row twice, the first with [gender = "Other"]. *)
Definition two_rows : DataFrame :=
  telco_frame [with_gender (VStr "Other") sample_customer; sample_customer].

(** * Proofs *)

(** Membership of a literal in a literal list. *)
Ltac in_list :=
  repeat first [apply list_elem_of_here | apply list_elem_of_further].

(** ** Running computations *)

Section Running.

Context {A B : Type}.

Lemma runs_ret (a : A) df : runs_to (mret a) df a df.
Proof. intros ev. exists []. by rewrite app_nil_r. Qed.

Lemma runs_bind (m : M A) (k : A → M B) df a df1 b df2 :
  runs_to m df a df1 → runs_to (k a) df1 b df2 → runs_to (m ≫= k) df b df2.
Proof.
  intros Hm Hk ev.
  destruct (Hm ev) as [evs1 E1], (Hk (ev ++ evs1)) as [evs2 E2].
  exists (evs1 ++ evs2). unfold mbind, M_bind.
  by rewrite E1, E2, app_assoc.
Qed.

Lemma runs_eq (m : M A) df a a' df1 df1' :
  runs_to m df a df1 → a = a' → df1 = df1' → runs_to m df a' df1'.
Proof. by intros H <- <-. Qed.

End Running.

Lemma runs_emit e df : runs_to (emit e) df () df.
Proof. intros ev. by exists [e]. Qed.

Lemma runs_print line df : runs_to (print line) df () df.
Proof. apply runs_emit. Qed.

Lemma runs_getitem c s df : df !! c = Some s → runs_to (getitem c) df s df.
Proof.
  intros H ev. exists [GetItem c].
  unfold getitem, mbind, M_bind, emit, column. simpl. by rewrite H.
Qed.

Lemma runs_setitem c s df : runs_to (setitem c s) df () (<[c := s]> df).
Proof. intros ev. by exists [SetItem c]. Qed.

Lemma runs_py_or (a b : M bool) df x y :
  runs_to a df x df → runs_to b df y df → runs_to (py_or a b) df (x || y) df.
Proof.
  intros Ha Hb. unfold py_or. eapply runs_bind; [exact Ha |].
  destruct x; simpl; [apply runs_ret | exact Hb].
Qed.

(** ** Columns *)

Lemma all_isin s allowed : all (isin s allowed) = forallb (cell_isin allowed) s.
Proof. unfold all, isin. induction s as [|v s IH]; simpl; [done | by rewrite IH]. Qed.

Lemma any_map {X} (f : X → bool) l : any (map f l) = existsb f l.
Proof. unfold any. induction l as [|v l IH]; simpl; [done | by rewrite IH]. Qed.

Lemma col_Some (df : DataFrame) c s : df !! c = Some s → col df c = s.
Proof. unfold col. by intros ->. Qed.

Section Correctness.

Variable parse : string → option float.

(** *** Coercion *)

Lemma as_float_to_numeric_cell v :
  as_float (to_numeric_cell parse v) = Some (numeric_value parse v).
Proof. unfold numeric_value. by destruct v. Qed.

Lemma to_numeric_cell_idempotent v :
  to_numeric_cell parse (to_numeric_cell parse v) = to_numeric_cell parse v.
Proof. by destruct v. Qed.

Lemma to_numeric_idempotent s :
  to_numeric parse (to_numeric parse s) = to_numeric parse s.
Proof.
  unfold to_numeric. rewrite map_map.
  apply map_ext. intros v. apply to_numeric_cell_idempotent.
Qed.

Lemma numeric_value_coerced v :
  numeric_value parse (to_numeric_cell parse v) = numeric_value parse v.
Proof. unfold numeric_value. by rewrite to_numeric_cell_idempotent. Qed.

(** A coerced column is compared without [TypeError]. *)
Lemma mapM_cmp_coerced (cmp : float → bool) s :
  mapM (λ v, x ← as_float v; Some (cmp x)) (to_numeric parse s)
  = Some (map (λ v, cmp (numeric_value parse v)) s).
Proof.
  unfold to_numeric.
  induction s as [|v s IH]; [done |].
  cbn [map mapM]. rewrite as_float_to_numeric_cell, IH. done.
Qed.

Lemma runs_any_lt c k s df :
  df !! c = Some (to_numeric parse s) →
  runs_to (any_lt c k) df (some_below parse k s) df.
Proof.
  intros H. unfold any_lt. eapply runs_bind; [by apply runs_getitem |].
  unfold series_lt, series_cmp, cell_lt.
  rewrite (mapM_cmp_coerced (λ x, float_ltb x (of_Z k))).
  eapply runs_bind; [apply runs_ret |]. rewrite any_map. apply runs_ret.
Qed.

Lemma runs_any_gt c k s df :
  df !! c = Some (to_numeric parse s) →
  runs_to (any_gt c k) df (some_above parse k s) df.
Proof.
  intros H. unfold any_gt. eapply runs_bind; [by apply runs_getitem |].
  unfold series_gt, series_cmp, cell_gt.
  rewrite (mapM_cmp_coerced (λ x, float_ltb (of_Z k) x)).
  eapply runs_bind; [apply runs_ret |]. rewrite any_map. apply runs_ret.
Qed.

(** *** The blocks of the fallback *)

Lemma append_flag (b : bool) (failed : list string) name :
  (if b then failed ++ [name] else failed) = failed ++ flag b name.
Proof. destruct b; simpl; [done | by rewrite app_nil_r]. Qed.

Lemma runs_check_isin c allowed name failed s df :
  df !! c = Some s →
  runs_to (check_isin c allowed name failed) df
    (failed ++ flag (some_outside allowed s) name) df.
Proof.
  intros H. unfold check_isin. eapply runs_bind; [by apply runs_getitem |].
  eapply runs_eq; [apply runs_ret | | done].
  rewrite all_isin. unfold some_outside.
  destruct (forallb _ s); simpl; [by rewrite app_nil_r | done].
Qed.

Lemma has_required_columns_complete df :
  has_required_columns df = true ↔ complete df.
Proof.
  unfold has_required_columns, complete. rewrite forallb_forall.
  split; intros H c Hc.
  - apply list_elem_of_In in Hc. apply H in Hc. by apply bool_decide_eq_true in Hc.
  - apply bool_decide_eq_true, H. by apply list_elem_of_In.
Qed.

Lemma complete_col df c : complete df → c ∈ required_columns → df !! c = Some (col df c).
Proof. intros H Hc. destruct (H c Hc) as [s Hs]. by rewrite (col_Some _ _ _ Hs). Qed.

Lemma runs_basic_value_checks df failed :
  complete df →
  runs_to (basic_value_checks failed) df (failed ++ value_failures df) df.
Proof.
  intros H. unfold basic_value_checks, value_failures.
  eapply runs_bind; [apply runs_check_isin, complete_col; [done | in_list] |].
  cbn [for_fold].
  eapply runs_bind.
  { eapply runs_bind; [apply runs_check_isin, complete_col; [done | in_list] |].
    eapply runs_bind; [apply runs_check_isin, complete_col; [done | in_list] |].
    eapply runs_bind; [apply runs_check_isin, complete_col; [done | in_list] |].
    apply runs_ret. }
  eapply runs_bind; [apply runs_check_isin, complete_col; [done | in_list] |].
  eapply runs_eq; [apply runs_check_isin, complete_col; [done | in_list] | | done].
  by rewrite <- !app_assoc.
Qed.

Lemma runs_coerce_numeric_columns df :
  complete df →
  runs_to (coerce_numeric_columns parse) df () (coerce_frame parse df).
Proof.
  intros H. unfold coerce_numeric_columns, coerce_frame, numeric_columns.
  cbn [for_fold].
  eapply runs_bind.
  { eapply runs_bind; [apply runs_getitem, complete_col; [done | in_list] |].
    apply runs_setitem. }
  eapply runs_bind.
  { eapply runs_bind.
    - apply runs_getitem. rewrite lookup_insert_ne by done.
      apply complete_col; [done | in_list].
    - apply runs_setitem. }
  eapply runs_bind.
  { eapply runs_bind.
    - apply runs_getitem. rewrite !lookup_insert_ne by done.
      apply complete_col; [done | in_list].
    - apply runs_setitem. }
  apply runs_ret.
Qed.

Lemma coerce_frame_tenure df :
  coerce_frame parse df !! "tenure" = Some (to_numeric parse (col df "tenure")).
Proof.
  unfold coerce_frame. rewrite !lookup_insert_ne by done. by rewrite lookup_insert_eq.
Qed.

Lemma coerce_frame_MonthlyCharges df :
  coerce_frame parse df !! "MonthlyCharges"
  = Some (to_numeric parse (col df "MonthlyCharges")).
Proof.
  unfold coerce_frame. rewrite lookup_insert_ne by done. by rewrite lookup_insert_eq.
Qed.

Lemma coerce_frame_TotalCharges df :
  coerce_frame parse df !! "TotalCharges"
  = Some (to_numeric parse (col df "TotalCharges")).
Proof. unfold coerce_frame. by rewrite lookup_insert_eq. Qed.

Lemma coerce_frame_other df c :
  c ≠ "tenure" → c ≠ "MonthlyCharges" → c ≠ "TotalCharges" →
  coerce_frame parse df !! c = df !! c.
Proof. intros. unfold coerce_frame. by rewrite !lookup_insert_ne. Qed.

Lemma runs_numeric_ranges df failed :
  runs_to (numeric_ranges failed) (coerce_frame parse df)
    (failed ++ range_failures parse df) (coerce_frame parse df).
Proof.
  unfold numeric_ranges, range_failures.
  eapply runs_bind.
  { apply runs_py_or; [apply runs_any_lt | apply runs_any_gt]; apply coerce_frame_tenure. }
  eapply runs_bind.
  { apply runs_py_or; [apply runs_any_lt | apply runs_any_gt];
      apply coerce_frame_MonthlyCharges. }
  eapply runs_bind; [apply runs_any_lt, coerce_frame_TotalCharges |].
  eapply runs_eq; [apply runs_ret | | done].
  rewrite !append_flag. by rewrite <- !app_assoc.
Qed.

(** *** The whole fallback *)

Lemma filter_nil {X} (f : X → bool) l :
  List.filter f l = [] ↔ ∀ x, x ∈ l → f x = false.
Proof.
  induction l as [|a l IH]; simpl.
  - split; [intros _ x Hx; by apply elem_of_nil in Hx | done].
  - destruct (f a) eqn:E.
    + split; [done | intros H; specialize (H a); rewrite E in H].
      discriminate H. by left.
    + rewrite IH. split.
      * intros H x Hx. apply elem_of_cons in Hx as [-> | Hx]; [done | by apply H].
      * intros H x Hx. apply H. by right.
Qed.

Lemma missing_columns_nil df : missing_columns (dom df) = [] ↔ complete df.
Proof.
  unfold missing_columns, complete. rewrite filter_nil.
  split; intros H c Hc; specialize (H c Hc).
  - apply negb_false_iff, bool_decide_eq_true in H. by apply elem_of_dom.
  - apply negb_false_iff, bool_decide_eq_true. by apply elem_of_dom.
Qed.

Lemma runs_columns df : runs_to columns df (dom df) df.
Proof. intros ev. exists []. unfold columns. simpl. by rewrite app_nil_r. Qed.

(** With the ten columns there, the fallback returns the verdict on the
    list of violated rules and leaves the coerced frame. *)
Lemma validate_fallback_present df :
  complete df →
  runs_to (validate_fallback parse) df
    (verdict (fallback_failures parse df)) (coerce_frame parse df).
Proof.
  intros H. unfold validate_fallback.
  eapply runs_bind; [apply runs_print |].
  eapply runs_bind; [apply runs_columns |].
  cbv beta zeta. rewrite (proj2 (missing_columns_nil df) H).
  eapply runs_bind; [by apply (runs_basic_value_checks df []) |].
  eapply runs_bind; [by apply runs_coerce_numeric_columns |].
  eapply runs_bind; [apply runs_numeric_ranges |].
  simpl. fold (fallback_failures parse df).
  destruct (fallback_failures parse df) eqn:E; simpl.
  - eapply runs_bind; [apply runs_print | apply runs_ret].
  - eapply runs_bind; [apply runs_print | apply runs_ret].
Qed.

(** With a column missing, the fallback prints two lines and returns. *)
Lemma validate_fallback_missing df ev :
  ¬ complete df →
  validate_fallback parse (mkWorld df ev)
  = (inr (false, ["missing_required_columns"]),
     mkWorld df
       (ev ++ [ Stdout "⚠️ Great Expectations not available; running simplified pandas checks.";
                Stdout ("❌ Missing required columns: "
                        +:+ py_list (missing_columns (dom df))) ])).
Proof.
  intros H. unfold validate_fallback, mbind, M_bind, print, emit, columns. simpl.
  destruct (missing_columns (dom df)) as [|c l] eqn:E.
  - by apply missing_columns_nil in E.
  - simpl. by rewrite <- app_assoc.
Qed.

Lemma complete_dec df : {complete df} + {¬ complete df}.
Proof.
  destruct (has_required_columns df) eqn:E.
  - left. by apply has_required_columns_complete.
  - right. intros H. apply has_required_columns_complete in H. congruence.
Qed.

(** What a call of the fallback returns and leaves, in one equation. *)
Lemma fallback_call df :
  let r := call (validate_telco_data parse None) df in
  returned r
  = Some (if has_required_columns df then verdict (fallback_failures parse df)
          else (false, ["missing_required_columns"]))
  ∧ raised r = None
  ∧ frame_after r = (if has_required_columns df then coerce_frame parse df else df).
Proof.
  unfold call, validate_telco_data, returned, raised, frame_after.
  destruct (has_required_columns df) eqn:E.
  - apply has_required_columns_complete in E.
    destruct (validate_fallback_present df E []) as [evs ->]. done.
  - rewrite validate_fallback_missing; [done |].
    intros H. apply has_required_columns_complete in H. congruence.
Qed.

Lemma verdict_failed failed : (verdict failed).2 = failed.
Proof. by destruct failed. Qed.

Lemma elem_of_flag (b : bool) name x : x ∈ flag b name ↔ b = true ∧ x = name.
Proof.
  destruct b; simpl.
  - rewrite list_elem_of_singleton. naive_solver.
  - split; [intros H; by apply elem_of_nil in H | by intros [? _]].
Qed.

Lemma some_outside_spec df c allowed :
  some_outside allowed (col df c) = true ↔ outside_domain df c allowed.
Proof.
  unfold some_outside, outside_domain. rewrite negb_true_iff.
  induction (col df c) as [|v s IH]; simpl.
  - split; [done | intros (v & Hv & _); by apply elem_of_nil in Hv].
  - rewrite andb_false_iff, IH. split.
    + intros [H | (w & Hw & Hf)]; [exists v | exists w]; split; try done.
      * by left.
      * by right.
    + intros (w & Hw & Hf). apply elem_of_cons in Hw as [-> | Hw]; [by left |].
      right. by exists w.
Qed.

Lemma existsb_elem_of {X} (f : X → bool) l :
  existsb f l = true ↔ ∃ x, x ∈ l ∧ f x = true.
Proof.
  rewrite existsb_exists. split; intros (x & Hx & Hf); exists x; split; try done.
  - by apply list_elem_of_In.
  - by apply list_elem_of_In.
Qed.

Lemma some_below_spec df c k : some_below parse k (col df c) = true ↔ below parse df c k.
Proof. apply existsb_elem_of. Qed.

Lemma some_above_spec df c k : some_above parse k (col df c) = true ↔ above parse df c k.
Proof. apply existsb_elem_of. Qed.

(** ** The claims *)

(** C1. When a required column is missing, the fallback (Mode B) returns
    [passed = False] with exactly [["missing_required_columns"]]; the
    frame is as it was, and the log holds printed lines only: no column
    was read or written, so no categorical check, range check or coercion
    ran. *)
Theorem missing_column_short_circuits df c :
  c ∈ required_columns → df !! c = None →
  let r := call (validate_telco_data parse None) df in
  returned r = Some (false, ["missing_required_columns"])
  ∧ frame_after r = df
  ∧ ∀ e, e ∈ events_after r → ∃ line, e = Stdout line.
Proof.
  intros Hc Hnone r.
  assert (Hmiss : ¬ complete df).
  { intros H. destruct (H c Hc) as [s Hs]. congruence. }
  subst r. unfold call, validate_telco_data.
  rewrite (validate_fallback_missing df [] Hmiss).
  unfold returned, frame_after, events_after. simpl.
  repeat split. intros e He.
  apply elem_of_cons in He as [-> | He]; [by eexists |].
  apply elem_of_cons in He as [-> | He]; [by eexists |].
  by apply elem_of_nil in He.
Qed.

Lemma fallback_returns_failures df :
  complete df →
  returned (call (validate_telco_data parse None) df)
  = Some (verdict (fallback_failures parse df)).
Proof.
  intros H. destruct (fallback_call df) as (-> & _).
  by rewrite (proj2 (has_required_columns_complete df) H).
Qed.

Lemma fallback_returns_pair df :
  complete df →
  returned (call (validate_telco_data parse None) df)
  = Some ((verdict (fallback_failures parse df)).1, fallback_failures parse df).
Proof.
  intros H. rewrite (fallback_returns_failures df H). f_equal.
  rewrite <- (verdict_failed (fallback_failures _ _)) at 3.
  by destruct (verdict _).
Qed.

(** Each identifier is in the list exactly when its rule is violated. *)
Lemma fallback_failures_rules df id rule :
  (id, rule) ∈ fallback_rules parse df → (id ∈ fallback_failures parse df ↔ rule).
Proof.
  intros Hin. unfold fallback_rules in Hin.
  unfold fallback_failures, value_failures, range_failures.
  rewrite !elem_of_app, !elem_of_flag, !orb_true_iff.
  rewrite !some_outside_spec, !some_below_spec, !some_above_spec.
  repeat (apply elem_of_cons in Hin as [[= -> ->] | Hin]); [naive_solver .. |].
  by apply elem_of_nil in Hin.
Qed.

Lemma fallback_failures_known id :
  ∀ df, id ∈ fallback_failures parse df → id ∈ fallback_identifiers.
Proof.
  intros df. unfold fallback_failures, value_failures, range_failures.
  rewrite !elem_of_app, !elem_of_flag. unfold fallback_identifiers.
  rewrite !elem_of_cons. naive_solver.
Qed.

(** C7. With the ten columns there, every check of the fallback (Mode B)
    runs whatever the earlier ones found: each identifier is in the
    returned list exactly when its own rule is violated, so a frame that
    violates several rules gets all of their identifiers. *)
Theorem fallback_reports_every_violation df :
  complete df →
  ∃ passed failed,
    returned (call (validate_telco_data parse None) df) = Some (passed, failed)
    ∧ ∀ id rule, (id, rule) ∈ fallback_rules parse df → (id ∈ failed ↔ rule).
Proof.
  intros H.
  exists (verdict (fallback_failures parse df)).1, (fallback_failures parse df).
  split; [by apply fallback_returns_pair |].
  intros id rule. apply fallback_failures_rules.
Qed.

(** C6. On every frame, whatever its cells hold, the fallback (Mode B)
    returns a result and raises nothing.  What is wrong with the data comes
    back as identifiers of failed checks: a missing column as
    [missing_required_columns], and, with the ten columns there, every
    violated rule of the fallback as its identifier. *)
Theorem fallback_never_raises df :
  let r := call (validate_telco_data parse None) df in
  raised r = None
  ∧ ∃ passed failed,
      returned r = Some (passed, failed)
      ∧ (∀ id, id ∈ failed → id ∈ fallback_identifiers)
      ∧ (¬ complete df → failed = ["missing_required_columns"])
      ∧ (complete df →
         ∀ id rule, (id, rule) ∈ fallback_rules parse df → rule → id ∈ failed).
Proof.
  intros r. destruct (fallback_call df) as (Hret & Hraise & _). fold r in Hret, Hraise.
  split; [done |].
  destruct (has_required_columns df) eqn:E.
  - apply has_required_columns_complete in E.
    exists (verdict (fallback_failures parse df)).1, (fallback_failures parse df).
    split; [by apply fallback_returns_pair |].
    split; [| split; [done |]].
    + intros id. apply fallback_failures_known.
    + intros _ id rule Hin Hrule. by apply (fallback_failures_rules df id rule Hin).
  - exists false, ["missing_required_columns"]. split; [done |].
    split; [| split; [done |]].
    + intros id ->%list_elem_of_singleton. unfold fallback_identifiers. by left.
    + intros H%has_required_columns_complete. congruence.
Qed.

(** C8. With the ten columns there, a row whose [gender] is outside
    {Male, Female} makes the fallback (Mode B) return [passed = False]
    with [gender_invalid] in the list. *)
Theorem gender_outside_domain_fails df v :
  complete df →
  v ∈ col df "gender" →
  cell_isin ["Male"; "Female"] v = false →
  ∃ failed,
    returned (call (validate_telco_data parse None) df) = Some (false, failed)
    ∧ "gender_invalid" ∈ failed.
Proof.
  intros H Hv Hout.
  assert (Hg : some_outside ["Male"; "Female"] (col df "gender") = true).
  { apply some_outside_spec. by exists v. }
  exists (fallback_failures parse df).
  rewrite (fallback_returns_failures df H).
  unfold fallback_failures, value_failures. rewrite Hg. simpl.
  split; [done | by left].
Qed.

(** *** With Great Expectations *)

Lemma runs_PandasDataset df : runs_to PandasDataset df df df.
Proof. intros ev. exists []. unfold PandasDataset. simpl. by rewrite app_nil_r. Qed.

Lemma runs_validate_with_ge lib df :
  runs_to (validate_with_ge lib) df
    (if suite_success (ge_validate lib df telco_suite) then (true, [])
     else (false, failed_expectation_types (ge_validate lib df telco_suite)))
    df.
Proof.
  unfold validate_with_ge.
  eapply runs_bind; [apply runs_print |].
  eapply runs_bind; [apply runs_PandasDataset |].
  do 5 (eapply runs_bind; [apply runs_print |]).
  cbv zeta. destruct (suite_success _).
  - eapply runs_bind; [apply runs_print | apply runs_ret].
  - eapply runs_bind; [apply runs_print |].
    eapply runs_bind; [apply runs_print | apply runs_ret].
Qed.

Lemma ge_call lib df :
  let r := call (validate_telco_data parse (Some lib)) df in
  returned r
  = Some (if suite_success (ge_validate lib df telco_suite) then (true, [])
          else (false, failed_expectation_types (ge_validate lib df telco_suite)))
  ∧ raised r = None
  ∧ frame_after r = df.
Proof.
  unfold call, validate_telco_data, returned, raised, frame_after.
  by destruct (runs_validate_with_ge lib df []) as [evs ->].
Qed.

Lemma failed_expectation_types_nonempty r :
  coherent r → suite_success r = false → failed_expectation_types r ≠ [].
Proof.
  unfold coherent, failed_expectation_types. intros -> H.
  induction (suite_results r) as [|x l IH]; simpl in *; [done |].
  destruct (result_success x); simpl; [by apply IH | done].
Qed.

(** C9. In both modes the result satisfies the invariant of
    [ValidationResult]: the list of failed checks is empty exactly when
    [passed] is true.  With Great Expectations, this rests on the report
    of the library being coherent: the suite succeeds exactly when each
    of its results does. *)
Theorem result_invariant ge df :
  (∀ lib, ge = Some lib → coherent (ge_validate lib df telco_suite)) →
  ∃ passed failed,
    returned (call (validate_telco_data parse ge) df) = Some (passed, failed)
    ∧ (failed = [] ↔ passed = true).
Proof.
  intros Hco. destruct ge as [lib |].
  - destruct (ge_call lib df) as (-> & _).
    destruct (suite_success _) eqn:E.
    + by exists true, [].
    + exists false, (failed_expectation_types (ge_validate lib df telco_suite)).
      split; [done |]. split; [| done].
      intros Hnil. by apply failed_expectation_types_nonempty in Hnil; [| apply Hco |].
  - destruct (fallback_call df) as (-> & _).
    destruct (has_required_columns df).
    + destruct (fallback_failures parse df) as [|x l]; simpl.
      * by exists true, [].
      * by exists false, (x :: l).
    + by exists false, ["missing_required_columns"].
Qed.

(** *** Valid datasets *)

Lemma float_leb_not_ltb x y : float_leb x y = true → float_ltb y x = false.
Proof.
  destruct x as [| [] | p], y as [| [] | q]; simpl; try done.
  intros H%Z.leb_le. apply Z.ltb_ge. lia.
Qed.

Lemma numeric_value_number v x : as_float v = Some x → numeric_value parse v = x.
Proof. unfold numeric_value. destruct v; simpl; congruence. Qed.

Lemma between_not_below lo hi s :
  forallb (cell_between (Some lo) hi) s = true → some_below parse lo s = false.
Proof.
  unfold some_below. induction s as [|v s IH]; cbn [existsb forallb]; [done |].
  intros [Hv Hs]%andb_true_iff. rewrite (IH Hs), orb_false_r.
  unfold cell_between in Hv. destruct (as_float v) as [x |] eqn:E; [| done].
  rewrite (numeric_value_number v x E).
  apply andb_true_iff in Hv as [Hlo _]. by apply float_leb_not_ltb.
Qed.

Lemma between_not_above lo hi s :
  forallb (cell_between lo (Some hi)) s = true → some_above parse hi s = false.
Proof.
  unfold some_above. induction s as [|v s IH]; cbn [existsb forallb]; [done |].
  intros [Hv Hs]%andb_true_iff. rewrite (IH Hs), orb_false_r.
  unfold cell_between in Hv. destruct (as_float v) as [x |] eqn:E; [| done].
  rewrite (numeric_value_number v x E).
  apply andb_true_iff in Hv as [_ Hhi]. by apply float_leb_not_ltb.
Qed.

Lemma between_not_null lo hi s :
  forallb (cell_between (Some lo) hi) s = true →
  forallb (λ v, negb (isna v)) s = true.
Proof.
  induction s as [|v s IH]; cbn [forallb]; [done |].
  intros [Hv Hs]%andb_true_iff. rewrite (IH Hs), andb_true_r.
  by destruct v as [| | [] |].
Qed.

Lemma valid_dataset_complete df : valid_dataset df = true → complete df.
Proof.
  unfold valid_dataset. rewrite !andb_true_iff. intros H.
  apply has_required_columns_complete. unfold has_required_columns. tauto.
Qed.

Lemma valid_dataset_no_failures df :
  valid_dataset df = true → fallback_failures parse df = [].
Proof.
  unfold valid_dataset. rewrite !andb_true_iff.
  intros (((((((((((_ & _) & Hg) & Hp) & Hd) & Hph) & Hc) & Hi) & Ht) & Hm) & Htc) & _).
  unfold fallback_failures, value_failures, range_failures, some_outside, col.
  rewrite Hg, Hp, Hd, Hph, Hc, Hi.
  rewrite (between_not_below _ _ _ Ht), (between_not_above _ _ _ Ht).
  rewrite (between_not_below _ _ _ Hm), (between_not_above _ _ _ Hm).
  by rewrite (between_not_below _ _ _ Htc).
Qed.

Lemma valid_dataset_expectations df :
  valid_dataset df = true → suite_success (spec_validate df telco_suite) = true.
Proof.
  intros H. pose proof (valid_dataset_complete df H) as Hc.
  unfold valid_dataset in H. rewrite !andb_true_iff in H.
  destruct H as (((((((((((_ & Hid) & Hg) & Hp) & Hd) & Hph) & Hco) & Hi) & Ht) & Hm)
                   & Htc) & Hrows).
  unfold spec_validate, telco_suite, consistency_expectation.
  cbn [map forallb suite_success result_success spec_expectation].
  unfold rows_A_B in Hrows.
  rewrite (complete_col df "customerID"), (complete_col df "gender"),
    (complete_col df "Partner"), (complete_col df "Dependents"),
    (complete_col df "PhoneService"), (complete_col df "InternetService"),
    (complete_col df "Contract"), (complete_col df "tenure"),
    (complete_col df "MonthlyCharges"), (complete_col df "TotalCharges")
    by (done || in_list).
  cbn [from_option]. unfold col. rewrite !all_isin.
  rewrite !bool_decide_true by done.
  rewrite Hid, Hg, Hp, Hd, Hph, Hco, Hi, Ht, Hm, Htc.
  rewrite (between_not_null _ _ _ Ht), (between_not_null _ _ _ Hm).
  cbn [andb]. rewrite andb_true_r.
  unfold at_least. cbn [Qnum Qden]. apply Nat.leb_le in Hrows. apply Z.leb_le. lia.
Qed.

(** C2. A frame that satisfies every rule of the data model passes in
    both modes with an empty list: in Mode A for the expectations as the
    specification describes them, in Mode B for the fallback checks. *)
Theorem valid_dataset_passes df :
  valid_dataset df = true →
  returned (call (validate_telco_data parse (Some spec_ge)) df) = Some (true, [])
  ∧ returned (call (validate_telco_data parse None) df) = Some (true, []).
Proof.
  intros H. split.
  - destruct (ge_call spec_ge df) as (-> & _).
    cbn [ge_validate spec_ge]. by rewrite (valid_dataset_expectations df H).
  - rewrite (fallback_returns_failures df (valid_dataset_complete df H)).
    by rewrite (valid_dataset_no_failures df H).
Qed.

(** *** Unparseable numbers *)

Lemma col_insert_eq (df : DataFrame) c s : col (<[c := s]> df) c = s.
Proof. unfold col. by rewrite lookup_insert_eq. Qed.

Lemma col_insert_ne (df : DataFrame) c c' s : c ≠ c' → col (<[c := s]> df) c' = col df c'.
Proof. intros H. unfold col. by rewrite lookup_insert_ne. Qed.

Lemma existsb_insert_false {X} (f : X → bool) l i x :
  existsb f l = false → f x = false → existsb f (<[i := x]> l) = false.
Proof.
  revert i. induction l as [|a l IH]; intros i; [done |].
  cbn [existsb]. intros [Ha Hl]%orb_false_iff Hx.
  destruct i as [|i]; cbn [existsb]; simpl.
  - by rewrite Hx, Hl.
  - by rewrite Ha, IH.
Qed.

Lemma numeric_value_unparseable s : parse s = None → numeric_value parse (VStr s) = NaN.
Proof. unfold numeric_value. simpl. by intros ->. Qed.

Lemma some_below_unparseable k l i s :
  parse s = None → some_below parse k l = false →
  some_below parse k (<[i := VStr s]> l) = false.
Proof.
  intros Hs Hl. apply existsb_insert_false; [done |].
  by rewrite (numeric_value_unparseable s Hs).
Qed.

Lemma some_above_unparseable k l i s :
  parse s = None → some_above parse k l = false →
  some_above parse k (<[i := VStr s]> l) = false.
Proof.
  intros Hs Hl. apply existsb_insert_false; [done |].
  by rewrite (numeric_value_unparseable s Hs).
Qed.

Lemma no_failures_intro df :
  forallb (cell_isin ["Male"; "Female"]) (col df "gender") = true →
  forallb (cell_isin ["Yes"; "No"]) (col df "Partner") = true →
  forallb (cell_isin ["Yes"; "No"]) (col df "Dependents") = true →
  forallb (cell_isin ["Yes"; "No"]) (col df "PhoneService") = true →
  forallb (cell_isin ["Month-to-month"; "One year"; "Two year"]) (col df "Contract") = true →
  forallb (cell_isin ["DSL"; "Fiber optic"; "No"]) (col df "InternetService") = true →
  some_below parse 0 (col df "tenure") = false →
  some_above parse 120 (col df "tenure") = false →
  some_below parse 0 (col df "MonthlyCharges") = false →
  some_above parse 200 (col df "MonthlyCharges") = false →
  some_below parse 0 (col df "TotalCharges") = false →
  fallback_failures parse df = [].
Proof.
  intros Hg Hp Hd Hph Hc Hi Ht Ht' Hm Hm' Htc.
  unfold fallback_failures, value_failures, range_failures, some_outside.
  by rewrite Hg, Hp, Hd, Hph, Hc, Hi, Ht, Ht', Hm, Hm', Htc.
Qed.

Lemma complete_insert df c s : complete df → complete (<[c := s]> df).
Proof.
  intros H c' Hc'. destruct (decide (c = c')) as [-> | Hne].
  - by rewrite lookup_insert_eq.
  - rewrite lookup_insert_ne by done. by apply H.
Qed.

(** C10. In Mode B a string that does not read as a number is coerced to
    [NaN]; [NaN] is neither below nor above any bound; and a valid frame
    in which one cell of [tenure], [MonthlyCharges] or [TotalCharges] is
    replaced by such a string still passes with an empty list. *)
Theorem unparseable_number_is_null s :
  parse s = None →
  to_numeric_cell parse (VStr s) = VFloat NaN
  ∧ (∀ k, cell_lt k (VFloat NaN) = Some false ∧ cell_gt k (VFloat NaN) = Some false)
  ∧ ∀ df c i,
      valid_dataset df = true → c ∈ numeric_columns →
      returned (call (validate_telco_data parse None)
                  (<[c := <[i := VStr s]> (col df c)]> df))
      = Some (true, []).
Proof.
  intros Hs. split; [simpl; by rewrite Hs |]. split; [done |].
  intros df c i H Hc.
  rewrite fallback_returns_failures
    by (apply complete_insert; by apply valid_dataset_complete).
  unfold valid_dataset in H. rewrite !andb_true_iff in H.
  destruct H as (((((((((((_ & _) & Hg) & Hp) & Hd) & Hph) & Hco) & Hi) & Ht) & Hm)
                   & Htc) & _).
  pose proof (between_not_below _ _ _ Ht) as Ht0.
  pose proof (between_not_above _ _ _ Ht) as Ht1.
  pose proof (between_not_below _ _ _ Hm) as Hm0.
  pose proof (between_not_above _ _ _ Hm) as Hm1.
  pose proof (between_not_below _ _ _ Htc) as Htc0.
  fold (col df "gender") in Hg. fold (col df "Partner") in Hp.
  fold (col df "Dependents") in Hd. fold (col df "PhoneService") in Hph.
  fold (col df "Contract") in Hco. fold (col df "InternetService") in Hi.
  fold (col df "tenure") in Ht0, Ht1. fold (col df "MonthlyCharges") in Hm0, Hm1.
  fold (col df "TotalCharges") in Htc0.
  unfold numeric_columns in Hc. rewrite !elem_of_cons in Hc.
  destruct Hc as [-> | [-> | [-> | Hc]]]; [| | | by apply elem_of_nil in Hc].
  all: rewrite no_failures_intro; [done | ..].
  all: rewrite ?col_insert_eq, ?col_insert_ne by done.
  all: first [ assumption
             | by apply some_below_unparseable
             | by apply some_above_unparseable ].
Qed.

(** *** The frame after a call *)

Lemma col_coerce_tenure df :
  col (coerce_frame parse df) "tenure" = to_numeric parse (col df "tenure").
Proof. apply col_Some, coerce_frame_tenure. Qed.

Lemma col_coerce_MonthlyCharges df :
  col (coerce_frame parse df) "MonthlyCharges"
  = to_numeric parse (col df "MonthlyCharges").
Proof. apply col_Some, coerce_frame_MonthlyCharges. Qed.

Lemma col_coerce_TotalCharges df :
  col (coerce_frame parse df) "TotalCharges" = to_numeric parse (col df "TotalCharges").
Proof. apply col_Some, coerce_frame_TotalCharges. Qed.

Lemma col_coerce_other df c :
  c ∉ numeric_columns → col (coerce_frame parse df) c = col df c.
Proof.
  unfold numeric_columns. rewrite !not_elem_of_cons. intros (? & ? & ? & _).
  unfold col. by rewrite coerce_frame_other.
Qed.

Lemma some_below_coerced k s : some_below parse k (to_numeric parse s) = some_below parse k s.
Proof.
  unfold some_below, to_numeric. induction s as [|v s IH]; [done |].
  cbn [map existsb]. by rewrite IH, numeric_value_coerced.
Qed.

Lemma some_above_coerced k s : some_above parse k (to_numeric parse s) = some_above parse k s.
Proof.
  unfold some_above, to_numeric. induction s as [|v s IH]; [done |].
  cbn [map existsb]. by rewrite IH, numeric_value_coerced.
Qed.

Lemma complete_coerce_frame df : complete df → complete (coerce_frame parse df).
Proof. intros H. unfold coerce_frame. by do 3 apply complete_insert. Qed.

(** Coercing an already coerced frame changes nothing. *)
Lemma coerce_frame_idempotent df :
  coerce_frame parse (coerce_frame parse df) = coerce_frame parse df.
Proof.
  unfold coerce_frame at 1.
  rewrite col_coerce_tenure, col_coerce_MonthlyCharges, col_coerce_TotalCharges.
  rewrite !to_numeric_idempotent.
  rewrite (insert_id _ "tenure") by apply coerce_frame_tenure.
  rewrite (insert_id _ "MonthlyCharges") by apply coerce_frame_MonthlyCharges.
  by rewrite (insert_id _ "TotalCharges") by apply coerce_frame_TotalCharges.
Qed.

(** The checks see the same values before and after the coercion. *)
Lemma fallback_failures_coerced df :
  fallback_failures parse (coerce_frame parse df) = fallback_failures parse df.
Proof.
  unfold fallback_failures, value_failures, range_failures.
  rewrite col_coerce_tenure, col_coerce_MonthlyCharges, col_coerce_TotalCharges.
  rewrite !some_below_coerced, !some_above_coerced.
  rewrite !col_coerce_other; [done | unfold numeric_columns; set_solver ..].
Qed.

(** C5. A second call on the same dataset object, right after the first,
    returns the same result, although in Mode B the first call has
    overwritten the numeric columns of the frame; the second call leaves
    the frame as the first left it. *)
Theorem validate_twice_same_result ge w :
  let first := validate_telco_data parse ge w in
  let second := validate_telco_data parse ge first.2 in
  second.1 = first.1
  ∧ frame second.2 = frame first.2
  ∧ ∃ result, first.1 = inr result.
Proof.
  destruct w as [df ev]. destruct ge as [lib |]; cbv zeta; unfold validate_telco_data.
  - destruct (runs_validate_with_ge lib df ev) as [evs ->]. cbn [snd].
    destruct (runs_validate_with_ge lib df (ev ++ evs)) as [evs' ->]. eauto.
  - destruct (complete_dec df) as [H | H].
    + destruct (validate_fallback_present df H ev) as [evs ->]. cbn [snd].
      destruct (validate_fallback_present _ (complete_coerce_frame df H) (ev ++ evs))
        as [evs' ->].
      rewrite fallback_failures_coerced, coerce_frame_idempotent. eauto.
    + rewrite (validate_fallback_missing df ev H). cbn [snd].
      rewrite (validate_fallback_missing df _ H). eauto.
Qed.

(** C3, as amended.  The result is a function of the frame passed in, but
    the frame is not always left as it was: with Great Expectations, or
    when a required column is missing, it is unchanged; otherwise the
    fallback has replaced [tenure], [MonthlyCharges] and [TotalCharges] by
    their numeric coercion.  Every other column is unchanged in all
    cases. *)
Theorem validate_frame_effect ge df :
  let r := call (validate_telco_data parse ge) df in
  frame_after r
  = match ge with
    | Some _ => df
    | None => if has_required_columns df then coerce_frame parse df else df
    end
  ∧ ∀ c, c ∉ numeric_columns → frame_after r !! c = df !! c.
Proof.
  intros r. subst r.
  assert (E : frame_after (call (validate_telco_data parse ge) df)
              = match ge with
                | Some _ => df
                | None => if has_required_columns df then coerce_frame parse df else df
                end).
  { destruct ge as [lib |].
    - by destruct (ge_call lib df) as (_ & _ & ->).
    - by destruct (fallback_call df) as (_ & _ & ->). }
  split; [done |]. rewrite E. intros c Hc.
  destruct ge; [done |]. destruct (has_required_columns df); [| done].
  unfold numeric_columns in Hc. rewrite !not_elem_of_cons in Hc.
  destruct Hc as (? & ? & ? & _). by apply coerce_frame_other.
Qed.

End Correctness.

(** ** The consistency expectation *)

(** C4. Mode A's consistency check, as the specification describes it,
    passes exactly when [TotalCharges >= MonthlyCharges] holds on at least
    95% of the rows: with 1 row in 20 violating it the check passes and the
    validator returns [(True, [])]; with 2 in 20, or 6 in 100, the check
    fails and the validator reports it. *)
Theorem consistency_check_threshold :
  (∀ (df : DataFrame) (sa sb : Series),
     df !! "TotalCharges" = Some sa → df !! "MonthlyCharges" = Some sb →
     spec_expectation df consistency_expectation = true
     ↔ (95 * length (zip sa sb)
        ≤ 100 * length (List.filter (row_A_greater_than_B true) (zip sa sb)))%nat)
  ∧ spec_expectation (telco_frame (inconsistent_rows 20 1)) consistency_expectation = true
  ∧ spec_expectation (telco_frame (inconsistent_rows 20 2)) consistency_expectation = false
  ∧ spec_expectation (telco_frame (inconsistent_rows 100 6)) consistency_expectation = false
  ∧ returned (call (validate_telco_data parse_decimal (Some spec_ge))
                (telco_frame (inconsistent_rows 20 1)))
    = Some (true, [])
  ∧ returned (call (validate_telco_data parse_decimal (Some spec_ge))
                (telco_frame (inconsistent_rows 20 2)))
    = Some (false, ["expect_column_pair_values_A_to_be_greater_than_B"]).
Proof.
  split; [| by vm_compute].
  intros df sa sb Ha Hb. unfold consistency_expectation. cbn [spec_expectation].
  rewrite Ha, Hb. unfold at_least. cbn [Qnum Qden].
  rewrite Z.leb_le. lia.
Qed.

(** ** The frame of the caller *)

(** C3, refuted as stated: on a frame whose [TotalCharges] column holds the
    text ["350.75"], the fallback leaves the caller's frame with the number
    350.75 in that column. *)
Lemma caller_frame_is_overwritten :
  text_charges !! "TotalCharges" = Some [VStr "350.75"]
  ∧ frame_after (call (validate_telco_data parse_decimal None) text_charges)
      !! "TotalCharges"
    = Some [VFloat (Finite (35075 # 100))]
  ∧ frame_after (call (validate_telco_data parse_decimal None) text_charges)
    ≠ text_charges.
Proof.
  split; [by vm_compute |]. split; [by vm_compute |].
  intros H. apply (f_equal (λ df : DataFrame, df !! "TotalCharges")) in H.
  vm_compute in H. discriminate H.
Qed.

(** ** The theorems at the scenarios of the specification *)

Example scenario_1_passes :
  returned (call (validate_telco_data parse_decimal None) scenario_1) = Some (true, [])
  ∧ returned (call (validate_telco_data parse_decimal (Some spec_ge)) scenario_1)
    = Some (true, []).
Proof. by vm_compute. Qed.

Example several_violations_reported :
  returned (call (validate_telco_data parse_decimal None) several_violations)
  = Some (false, ["gender_invalid"; "contract_invalid"; "tenure_range"]).
Proof. by vm_compute. Qed.

Lemma missing_column_short_circuits_witness :
  let r := call (validate_telco_data parse_decimal None) scenario_4 in
  returned r = Some (false, ["missing_required_columns"])
  ∧ frame_after r = scenario_4
  ∧ ∀ e, e ∈ events_after r → ∃ line, e = Stdout line.
Proof.
  apply (missing_column_short_circuits parse_decimal scenario_4 "Contract").
  - in_list.
  - vm_compute. reflexivity.
Defined.

Lemma valid_dataset_passes_witness :
  valid_dataset scenario_1 = true
  ∧ returned (call (validate_telco_data parse_decimal (Some spec_ge)) scenario_1)
    = Some (true, [])
  ∧ returned (call (validate_telco_data parse_decimal None) scenario_1) = Some (true, []).
Proof.
  split; [vm_compute; reflexivity |].
  apply (valid_dataset_passes parse_decimal scenario_1). vm_compute. reflexivity.
Defined.

Lemma fallback_reports_every_violation_witness :
  ∃ passed failed,
    returned (call (validate_telco_data parse_decimal None) several_violations)
    = Some (passed, failed)
    ∧ ∀ id rule, (id, rule) ∈ fallback_rules parse_decimal several_violations →
                 (id ∈ failed ↔ rule).
Proof.
  apply (fallback_reports_every_violation parse_decimal several_violations).
  apply has_required_columns_complete. vm_compute. reflexivity.
Defined.

Lemma gender_outside_domain_fails_witness :
  ∃ failed,
    returned (call (validate_telco_data parse_decimal None) scenario_2)
    = Some (false, failed)
    ∧ "gender_invalid" ∈ failed.
Proof.
  apply (gender_outside_domain_fails parse_decimal scenario_2 (VStr "Other")).
  - apply has_required_columns_complete. vm_compute. reflexivity.
  - vm_compute. apply list_elem_of_here.
  - vm_compute. reflexivity.
Defined.

Lemma result_invariant_witness :
  ∃ passed failed,
    returned (call (validate_telco_data parse_decimal (Some spec_ge)) scenario_2)
    = Some (passed, failed)
    ∧ (failed = [] ↔ passed = true).
Proof.
  apply (result_invariant parse_decimal (Some spec_ge) scenario_2).
  intros lib [= <-]. reflexivity.
Defined.

Lemma unparseable_number_is_null_witness :
  parse_decimal " " = None
  ∧ to_numeric_cell parse_decimal (VStr " ") = VFloat NaN
  ∧ returned (call (validate_telco_data parse_decimal None)
                (<["TotalCharges" := <[0%nat := VStr " "]> (col scenario_1 "TotalCharges")]>
                   scenario_1))
    = Some (true, []).
Proof.
  split; [vm_compute; reflexivity |].
  destruct (unparseable_number_is_null parse_decimal " ") as (H1 & _ & H3).
  - vm_compute. reflexivity.
  - split; [exact H1 |].
    apply (H3 scenario_1 "TotalCharges" 0%nat).
    + vm_compute. reflexivity.
    + in_list.
Defined.

(** * Further properties of the validator *)

(** ** Computations with their log *)

Section Logging.

Context {A B : Type}.

Lemma log_ret (a : A) df : runs_log (mret a) df a df [].
Proof. intros ev. by rewrite app_nil_r. Qed.

Lemma log_bind (m : M A) (k : A → M B) df a df1 b df2 evs1 evs2 :
  runs_log m df a df1 evs1 → runs_log (k a) df1 b df2 evs2 →
  runs_log (m ≫= k) df b df2 (evs1 ++ evs2).
Proof.
  intros Hm Hk ev. unfold mbind, M_bind.
  by rewrite Hm, Hk, app_assoc.
Qed.

Lemma log_eq (m : M A) df a a' df1 df1' evs evs' :
  runs_log m df a df1 evs → a = a' → df1 = df1' → evs = evs' →
  runs_log m df a' df1' evs'.
Proof. by intros H <- <- <-. Qed.

End Logging.

Lemma log_print line df : runs_log (print line) df () df [Stdout line].
Proof. by intros ev. Qed.

Lemma log_getitem c s df : df !! c = Some s → runs_log (getitem c) df s df [GetItem c].
Proof.
  intros H ev. unfold getitem, mbind, M_bind, emit, column. simpl. by rewrite H.
Qed.

Lemma log_setitem c s df : runs_log (setitem c s) df () (<[c := s]> df) [SetItem c].
Proof. by intros ev. Qed.

Lemma log_py_or (a b : M bool) df x y evs1 evs2 :
  runs_log a df x df evs1 → runs_log b df y df evs2 →
  runs_log (py_or a b) df (x || y) df (evs1 ++ if x then [] else evs2).
Proof.
  intros Ha Hb. unfold py_or. eapply log_bind; [exact Ha |].
  destruct x; simpl; [apply log_ret | exact Hb].
Qed.

Section Coverage.

Variable parse : string → option float.

Lemma log_check_isin c allowed name failed s df :
  df !! c = Some s →
  runs_log (check_isin c allowed name failed) df
    (failed ++ flag (some_outside allowed s) name) df [GetItem c].
Proof.
  intros H. unfold check_isin.
  eapply log_eq; [eapply log_bind; [by apply log_getitem | apply log_ret] | | done | done].
  rewrite all_isin. unfold some_outside.
  destruct (forallb _ s); simpl; [by rewrite app_nil_r | done].
Qed.

Lemma log_any_lt c k s df :
  df !! c = Some (to_numeric parse s) →
  runs_log (any_lt c k) df (some_below parse k s) df [GetItem c].
Proof.
  intros H. unfold any_lt.
  eapply log_eq; [eapply log_bind; [by apply log_getitem |] | done | done | done].
  unfold series_lt, series_cmp, cell_lt.
  rewrite (mapM_cmp_coerced parse (λ x, float_ltb x (of_Z k))).
  eapply log_eq; [eapply log_bind; [apply log_ret | apply log_ret] | | done | done].
  apply any_map.
Qed.

Lemma log_any_gt c k s df :
  df !! c = Some (to_numeric parse s) →
  runs_log (any_gt c k) df (some_above parse k s) df [GetItem c].
Proof.
  intros H. unfold any_gt.
  eapply log_eq; [eapply log_bind; [by apply log_getitem |] | done | done | done].
  unfold series_gt, series_cmp, cell_gt.
  rewrite (mapM_cmp_coerced parse (λ x, float_ltb (of_Z k) x)).
  eapply log_eq; [eapply log_bind; [apply log_ret | apply log_ret] | | done | done].
  apply any_map.
Qed.

Lemma log_basic_value_checks df failed :
  complete df →
  runs_log (basic_value_checks failed) df (failed ++ value_failures df) df
    [ GetItem "gender"; GetItem "Partner"; GetItem "Dependents";
      GetItem "PhoneService"; GetItem "Contract"; GetItem "InternetService" ].
Proof.
  intros H. unfold basic_value_checks, value_failures. cbn [for_fold].
  eapply log_eq.
  - eapply log_bind; [apply log_check_isin, complete_col; [done | in_list] |].
    eapply log_bind.
    { eapply log_bind; [apply log_check_isin, complete_col; [done | in_list] |].
      eapply log_bind; [apply log_check_isin, complete_col; [done | in_list] |].
      eapply log_bind; [apply log_check_isin, complete_col; [done | in_list] |].
      apply log_ret. }
    eapply log_bind; [apply log_check_isin, complete_col; [done | in_list] |].
    apply log_check_isin, complete_col; [done | in_list].
  - by rewrite <- !app_assoc.
  - done.
  - done.
Qed.

Lemma log_coerce_numeric_columns df :
  complete df →
  runs_log (coerce_numeric_columns parse) df () (coerce_frame parse df)
    [ GetItem "tenure"; SetItem "tenure";
      GetItem "MonthlyCharges"; SetItem "MonthlyCharges";
      GetItem "TotalCharges"; SetItem "TotalCharges" ].
Proof.
  intros H. unfold coerce_numeric_columns, coerce_frame, numeric_columns.
  cbn [for_fold].
  eapply log_eq; [| done | done |].
  - eapply log_bind.
    { eapply log_bind; [apply log_getitem, complete_col; [done | in_list] |].
      apply log_setitem. }
    eapply log_bind.
    { eapply log_bind.
      - apply log_getitem. rewrite lookup_insert_ne by done.
        apply complete_col; [done | in_list].
      - apply log_setitem. }
    eapply log_bind.
    { eapply log_bind.
      - apply log_getitem. rewrite !lookup_insert_ne by done.
        apply complete_col; [done | in_list].
      - apply log_setitem. }
    apply log_ret.
  - done.
Qed.

Lemma log_numeric_ranges df failed :
  runs_log (numeric_ranges failed) (coerce_frame parse df)
    (failed ++ range_failures parse df) (coerce_frame parse df)
    (or_reads (some_below parse 0 (col df "tenure")) "tenure"
     ++ or_reads (some_below parse 0 (col df "MonthlyCharges")) "MonthlyCharges"
     ++ [GetItem "TotalCharges"]).
Proof.
  unfold numeric_ranges, range_failures.
  eapply log_eq; [| | done |].
  - eapply log_bind.
    { apply log_py_or; [apply log_any_lt | apply log_any_gt]; apply coerce_frame_tenure. }
    eapply log_bind.
    { apply log_py_or; [apply log_any_lt | apply log_any_gt];
        apply coerce_frame_MonthlyCharges. }
    eapply log_bind; [apply log_any_lt, coerce_frame_TotalCharges | apply log_ret].
  - rewrite !append_flag. by rewrite <- !app_assoc.
  - unfold or_reads.
    by destruct (some_below parse 0 (col df "tenure")),
         (some_below parse 0 (col df "MonthlyCharges")).
Qed.

Lemma log_columns df : runs_log columns df (dom df) df [].
Proof. intros ev. unfold columns. simpl. by rewrite app_nil_r. Qed.

(** The fallback on a frame with the ten columns, with its exact log. *)
Lemma log_validate_fallback df :
  complete df →
  runs_log (validate_fallback parse) df
    (verdict (fallback_failures parse df)) (coerce_frame parse df)
    (fallback_log parse df).
Proof.
  intros H. unfold validate_fallback.
  eapply log_eq; [| done | done |].
  - eapply log_bind; [apply log_print |].
    eapply log_bind; [apply log_columns |].
    cbv beta zeta. rewrite (proj2 (missing_columns_nil df) H).
    eapply log_bind; [by apply (log_basic_value_checks df []) |].
    eapply log_bind; [by apply log_coerce_numeric_columns |].
    eapply log_bind; [apply log_numeric_ranges |].
    cbn [app]. fold (fallback_failures parse df).
    instantiate (1 := [Stdout (final_line (fallback_failures parse df))]).
    destruct (fallback_failures parse df) eqn:E; cbn [verdict final_line].
    + eapply log_eq; [eapply log_bind; [apply log_print | apply log_ret] | done ..].
    + eapply log_eq; [eapply log_bind; [apply log_print | apply log_ret] | done ..].
  - unfold fallback_log. cbn [app]. by rewrite <- !app_assoc.
Qed.

(** The events of a call of the fallback. *)
Lemma fallback_events df :
  events_after (call (validate_telco_data parse None) df)
  = if has_required_columns df then fallback_log parse df
    else [ Stdout "⚠️ Great Expectations not available; running simplified pandas checks.";
           Stdout ("❌ Missing required columns: "
                   +:+ py_list (missing_columns (dom df))) ].
Proof.
  unfold call, validate_telco_data, events_after.
  destruct (has_required_columns df) eqn:E.
  - apply has_required_columns_complete in E.
    by rewrite (log_validate_fallback df E []).
  - rewrite validate_fallback_missing; [done |].
    intros H. apply has_required_columns_complete in H. congruence.
Qed.

(** With Great Expectations the log holds printed lines only. *)
Lemma ge_events lib df :
  Forall (λ e, ∃ line, e = Stdout line)
    (events_after (call (validate_telco_data parse (Some lib)) df)).
Proof.
  unfold call, validate_telco_data, events_after, validate_with_ge.
  unfold mbind, M_bind, print, emit, PandasDataset. cbn.
  destruct (suite_success _); cbn; repeat constructor; by eexists.
Qed.

(** ** The list the fallback returns *)

Lemma flag_sublist (b : bool) name : flag b name `sublist_of` [name].
Proof. destruct b; simpl; [done | apply sublist_nil_l]. Qed.

Lemma fallback_failures_sublist df :
  fallback_failures parse df `sublist_of` fallback_identifiers.
Proof.
  unfold fallback_failures, value_failures, range_failures, fallback_identifiers.
  apply sublist_cons. rewrite <- !app_assoc.
  repeat (apply (sublist_app _ [_]); [apply flag_sublist |]).
  apply flag_sublist.
Qed.

Lemma fallback_identifiers_NoDup : NoDup fallback_identifiers.
Proof. apply (bool_decide_unpack _). by vm_compute. Qed.

(** X1. The list the fallback (Mode B) returns is a sublist of the ten
    identifiers in the order of the checks in the source: identifiers come
    in that order, and none comes twice. *)
Theorem fallback_list_is_ordered df :
  ∃ passed failed,
    returned (call (validate_telco_data parse None) df) = Some (passed, failed)
    ∧ failed `sublist_of` fallback_identifiers
    ∧ NoDup failed.
Proof.
  destruct (fallback_call parse df) as (-> & _).
  destruct (has_required_columns df).
  - exists (verdict (fallback_failures parse df)).1, (fallback_failures parse df).
    split.
    + f_equal. rewrite <- (verdict_failed (fallback_failures _ _)) at 3.
      by destruct (verdict _).
    + pose proof (fallback_failures_sublist df) as Hsub.
      split; [done |]. by apply (sublist_NoDup _ _ fallback_identifiers_NoDup).
  - exists false, ["missing_required_columns"]. split; [done |].
    assert (Hsub : ["missing_required_columns"] `sublist_of` fallback_identifiers).
    { apply sublist_skip, sublist_nil_l. }
    split; [done |]. by apply (sublist_NoDup _ _ fallback_identifiers_NoDup).
Qed.

(** ** Columns the fallback does not look at *)

Lemma fallback_failures_insert df c s :
  c ∉ checked_columns →
  fallback_failures parse (<[c := s]> df) = fallback_failures parse df.
Proof.
  unfold checked_columns. rewrite !not_elem_of_cons.
  intros (? & ? & ? & ? & ? & ? & ? & ? & ? & _).
  unfold fallback_failures, value_failures, range_failures.
  by rewrite !col_insert_ne.
Qed.

(** X2. The fallback (Mode B) looks at nine columns only: on a frame with
    the ten required columns, replacing any other column, [customerID]
    included, by any values leaves the result as it was.  In particular
    null identifiers are accepted. *)
Theorem fallback_ignores_other_columns df c s :
  complete df → c ∉ checked_columns →
  returned (call (validate_telco_data parse None) (<[c := s]> df))
  = returned (call (validate_telco_data parse None) df).
Proof.
  intros H Hc.
  rewrite (fallback_returns_failures parse _ (complete_insert df c s H)).
  rewrite (fallback_returns_failures parse df H).
  by rewrite (fallback_failures_insert df c s Hc).
Qed.

(** ** Rows *)

Lemma some_outside_app allowed (s1 s2 : Series) :
  some_outside allowed (s1 ++ s2) = some_outside allowed s1 || some_outside allowed s2.
Proof. unfold some_outside. by rewrite forallb_app, negb_andb. Qed.

Lemma some_below_app k (s1 s2 : Series) :
  some_below parse k (s1 ++ s2) = some_below parse k s1 || some_below parse k s2.
Proof. unfold some_below. by rewrite existsb_app. Qed.

Lemma some_above_app k (s1 s2 : Series) :
  some_above parse k (s1 ++ s2) = some_above parse k s1 || some_above parse k s2.
Proof. unfold some_above. by rewrite existsb_app. Qed.

Lemma fallback_failures_app df df1 df2 id :
  (∀ c, c ∈ checked_columns → col df c = col df1 c ++ col df2 c) →
  id ∈ fallback_failures parse df
  ↔ id ∈ fallback_failures parse df1 ∨ id ∈ fallback_failures parse df2.
Proof.
  intros Hc. unfold fallback_failures, value_failures, range_failures.
  rewrite !Hc by in_list.
  rewrite !some_outside_app, !some_below_app, !some_above_app.
  rewrite !elem_of_app, !(elem_of_flag parse), !orb_true_iff. tauto.
Qed.

Lemma verdict_union (f f1 f2 : list string) :
  (∀ id, id ∈ f ↔ id ∈ f1 ∨ id ∈ f2) →
  (verdict f).1 = (verdict f1).1 && (verdict f2).1.
Proof.
  intros H. destruct f as [|x f], f1 as [|x1 f1], f2 as [|x2 f2]; simpl; try done.
  - assert (x2 ∈ @nil string) as Hx by (apply H; right; by left).
    by apply elem_of_nil in Hx.
  - assert (x1 ∈ @nil string) as Hx by (apply H; left; by left).
    by apply elem_of_nil in Hx.
  - assert (x1 ∈ @nil string) as Hx by (apply H; left; by left).
    by apply elem_of_nil in Hx.
  - assert (x ∈ @nil string ∨ x ∈ @nil string) as [Hx | Hx] by (apply H; by left);
      by apply elem_of_nil in Hx.
Qed.

(** X3. The fallback (Mode B) judges rows one by one: when the rows of a
    frame are those of a first frame followed by those of a second, an
    identifier is returned for the whole exactly when it is returned for one
    of the parts, and the whole passes exactly when both parts pass. *)
Theorem fallback_rows_compose df df1 df2 :
  complete df → complete df1 → complete df2 →
  (∀ c, c ∈ checked_columns → col df c = col df1 c ++ col df2 c) →
  ∃ passed failed passed1 failed1 passed2 failed2,
    returned (call (validate_telco_data parse None) df) = Some (passed, failed)
    ∧ returned (call (validate_telco_data parse None) df1) = Some (passed1, failed1)
    ∧ returned (call (validate_telco_data parse None) df2) = Some (passed2, failed2)
    ∧ (∀ id, id ∈ failed ↔ id ∈ failed1 ∨ id ∈ failed2)
    ∧ passed = passed1 && passed2.
Proof.
  intros H H1 H2 Hc.
  exists (verdict (fallback_failures parse df)).1, (fallback_failures parse df),
    (verdict (fallback_failures parse df1)).1, (fallback_failures parse df1),
    (verdict (fallback_failures parse df2)).1, (fallback_failures parse df2).
  rewrite !fallback_returns_pair by done.
  do 3 (split; [done |]). split.
  - intros id. by apply fallback_failures_app.
  - apply verdict_union. intros id. by apply fallback_failures_app.
Qed.

(** X4. A frame that has the ten columns and no row passes the fallback
    (Mode B): with nothing to check, [.all()] is true and [.any()] false. *)
Theorem fallback_without_rows_passes df :
  complete df → (∀ c, c ∈ checked_columns → col df c = []) →
  returned (call (validate_telco_data parse None) df) = Some (true, []).
Proof.
  intros H Hc. rewrite (fallback_returns_failures parse df H).
  unfold fallback_failures, value_failures, range_failures.
  by rewrite !Hc by in_list.
Qed.

(** ** The frame the call leaves *)

Lemma length_to_numeric (s : Series) : length (to_numeric parse s) = length s.
Proof. unfold to_numeric. apply length_map. Qed.

Lemma to_numeric_numbers (s : Series) : forallb is_number (to_numeric parse s) = true.
Proof.
  unfold to_numeric. induction s as [|v s IH]; [done |].
  cbn [map forallb]. rewrite IH. by destruct v.
Qed.


Lemma dom_coerce_frame df : complete df → dom (coerce_frame parse df) = dom df.
Proof.
  intros H. unfold coerce_frame. rewrite !dom_insert_L.
  assert ("tenure" ∈ dom df) by (apply elem_of_dom, H; in_list).
  assert ("MonthlyCharges" ∈ dom df) by (apply elem_of_dom, H; in_list).
  assert ("TotalCharges" ∈ dom df) by (apply elem_of_dom, H; in_list).
  set_solver.
Qed.

Lemma col_coerce_frame df c :
  col (coerce_frame parse df) c
  = if bool_decide (c ∈ numeric_columns) then to_numeric parse (col df c) else col df c.
Proof.
  case_bool_decide as Hc.
  - unfold numeric_columns in Hc. rewrite !elem_of_cons in Hc.
    destruct Hc as [-> | [-> | [-> | Hc]]]; [| | | by apply elem_of_nil in Hc].
    + apply col_coerce_tenure.
    + apply col_coerce_MonthlyCharges.
    + apply col_coerce_TotalCharges.
  - by apply col_coerce_other.
Qed.

(** The frame after a call, for the proofs below. *)
Lemma frame_after_call ge df :
  frame_after (call (validate_telco_data parse ge) df)
  = match ge with
    | Some _ => df
    | None => if has_required_columns df then coerce_frame parse df else df
    end.
Proof.
  destruct ge as [lib |].
  - by destruct (ge_call parse lib df) as (_ & _ & ->).
  - by destruct (fallback_call parse df) as (_ & _ & ->).
Qed.

(** X5. In both modes a call keeps the shape of the caller's frame: the
    same columns, and in every column the same number of rows; the
    coercion of lines 116-117 replaces values one for one. *)
Theorem validate_preserves_shape ge df :
  let r := call (validate_telco_data parse ge) df in
  dom (frame_after r) = dom df
  ∧ ∀ c, length (col (frame_after r) c) = length (col df c).
Proof.
  cbv zeta. rewrite frame_after_call.
  destruct ge as [lib |]; [done |].
  destruct (has_required_columns df) eqn:E; [| done].
  apply has_required_columns_complete in E.
  split; [by apply dom_coerce_frame |].
  intros c. rewrite col_coerce_frame.
  case_bool_decide; [apply length_to_numeric | done].
Qed.

(** X6. After the fallback (Mode B) ran on a frame with the ten columns,
    every cell of [tenure], [MonthlyCharges] and [TotalCharges] in the
    caller's frame is a number: no text and no [None] is left there. *)
Theorem fallback_leaves_numbers df c :
  complete df → c ∈ numeric_columns →
  forallb is_number (col (frame_after (call (validate_telco_data parse None) df)) c)
  = true.
Proof.
  intros H Hc. rewrite frame_after_call.
  rewrite (proj2 (has_required_columns_complete df) H).
  rewrite col_coerce_frame, bool_decide_true by done.
  apply to_numeric_numbers.
Qed.


(** ** The log of a call *)

Lemma prints_access evs :
  Forall (λ e, ∃ line, e = Stdout line) evs → reads evs = [] ∧ writes evs = [].
Proof.
  induction 1 as [|e evs [line ->] _ [IHr IHw]]; [done |].
  split; [exact IHr | exact IHw].
Qed.

(** X8. What a call touches.  Every column a call reads through [df[...]]
    is one of the nine checked ones, so [customerID] is never read; the
    columns it writes are [tenure], [MonthlyCharges], [TotalCharges], once
    each and in that order, when the fallback runs on a frame with the ten
    columns, and none otherwise. *)
Theorem validate_access_footprint ge df :
  let evs := events_after (call (validate_telco_data parse ge) df) in
  (∀ c, c ∈ reads evs → c ∈ checked_columns)
  ∧ writes evs
    = match ge with
      | Some _ => []
      | None => if has_required_columns df then numeric_columns else []
      end.
Proof.
  cbv zeta. destruct ge as [lib |].
  - destruct (prints_access _ (ge_events lib df)) as [-> ->].
    split; [| done]. intros c Hc. by apply elem_of_nil in Hc.
  - rewrite fallback_events. destruct (has_required_columns df).
    + unfold fallback_log, or_reads.
      destruct (some_below parse 0 (col df "tenure")),
        (some_below parse 0 (col df "MonthlyCharges")); cbn.
      all: split; [| done].
      all: intros c Hc; rewrite !elem_of_cons in Hc.
      all: repeat (destruct Hc as [-> | Hc]; [in_list |]).
      all: by apply elem_of_nil in Hc.
    + cbn. split; [| done]. intros c Hc. by apply elem_of_nil in Hc.
Qed.

(** X9. The last line the fallback (Mode B) prints tells its result: the
    line of success when it returns [passed = True], the returned list when
    checks failed, and the names of the missing columns when it stopped at
    the schema check. *)
Theorem fallback_log_reports_result df :
  ∃ passed failed,
    returned (call (validate_telco_data parse None) df) = Some (passed, failed)
    ∧ last (events_after (call (validate_telco_data parse None) df))
      = Some (Stdout
                (if has_required_columns df then final_line failed
                 else "❌ Missing required columns: "
                      +:+ py_list (missing_columns (dom df)))).
Proof.
  rewrite fallback_events. destruct (fallback_call parse df) as (-> & _).
  destruct (has_required_columns df).
  - exists (verdict (fallback_failures parse df)).1, (fallback_failures parse df).
    split.
    + f_equal. rewrite <- (verdict_failed (fallback_failures _ _)) at 3.
      by destruct (verdict _).
    + unfold fallback_log, or_reads.
      by destruct (some_below parse 0 (col df "tenure")),
           (some_below parse 0 (col df "MonthlyCharges")).
  - by exists false, ["missing_required_columns"].
Qed.

(** ** Missing columns *)

Lemma filter_sublist {X} (f : X → bool) l : List.filter f l `sublist_of` l.
Proof.
  induction l as [|x l IH]; simpl; [done |].
  destruct (f x); [by apply sublist_skip | by apply sublist_cons].
Qed.

Lemma elem_of_missing_columns (df : DataFrame) c :
  c ∈ missing_columns (dom df) ↔ c ∈ required_columns ∧ df !! c = None.
Proof.
  unfold missing_columns. rewrite list_elem_of_In, filter_In, <- list_elem_of_In.
  rewrite negb_true_iff, bool_decide_eq_false, not_elem_of_dom. done.
Qed.

(** X10. When a required column is missing, the fallback (Mode B) logs
    exactly two lines, the second naming the missing columns: those of the
    ten required columns the frame does not have, in the order of
    [required_columns].  The returned identifier does not tell which
    columns are missing; the log does. *)
Theorem missing_columns_are_logged df :
  ¬ complete df →
  events_after (call (validate_telco_data parse None) df)
  = [ Stdout "⚠️ Great Expectations not available; running simplified pandas checks.";
      Stdout ("❌ Missing required columns: " +:+ py_list (missing_columns (dom df))) ]
  ∧ missing_columns (dom df) ≠ []
  ∧ missing_columns (dom df) `sublist_of` required_columns
  ∧ ∀ c, c ∈ missing_columns (dom df) ↔ c ∈ required_columns ∧ df !! c = None.
Proof.
  intros H. split; [| split; [| split]].
  - rewrite fallback_events.
    destruct (has_required_columns df) eqn:E; [| done].
    by apply has_required_columns_complete in E.
  - intros E. by apply missing_columns_nil in E.
  - apply filter_sublist.
  - apply elem_of_missing_columns.
Qed.

(** ** The identifiers of the two modes *)

Lemma suite_types id :
  id ∈ map expectation_type telco_suite →
  id ∈ expectation_types ∧ id ∉ fallback_identifiers.
Proof.
  intros H. cbn in H. rewrite !elem_of_cons in H.
  repeat (destruct H as [-> | H];
          [split; [in_list | apply (bool_decide_unpack _); by vm_compute] |]).
  by apply elem_of_nil in H.
Qed.

Lemma elem_of_failed_expectation_types r id :
  id ∈ failed_expectation_types r →
  ∃ x, x ∈ suite_results r ∧ result_success x = false ∧ result_type x = id.
Proof.
  unfold failed_expectation_types. rewrite list_elem_of_In, in_map_iff.
  intros (x & <- & [Hx Hf]%filter_In). exists x.
  rewrite list_elem_of_In. by rewrite negb_true_iff in Hf.
Qed.

(** X11. The two modes never return a common identifier.  With Great
    Expectations, for a report whose results are about the registered
    expectations, every returned identifier is one of the five expectation
    types, and none of them is an identifier of the fallback; a caller
    cannot match on identifiers without knowing the mode. *)
Theorem modes_share_no_identifier lib df :
  report_of_suite (ge_validate lib df telco_suite) = true →
  ∃ passed failed,
    returned (call (validate_telco_data parse (Some lib)) df) = Some (passed, failed)
    ∧ ∀ id, id ∈ failed → id ∈ expectation_types ∧ id ∉ fallback_identifiers.
Proof.
  intros Hr. destruct (ge_call parse lib df) as (-> & _).
  destruct (suite_success _).
  - exists true, []. split; [done |]. intros id Hid. by apply elem_of_nil in Hid.
  - exists false, (failed_expectation_types (ge_validate lib df telco_suite)).
    split; [done |]. intros id (x & Hx & _ & <-)%elem_of_failed_expectation_types.
    apply suite_types. unfold report_of_suite in Hr.
    rewrite forallb_forall in Hr. apply list_elem_of_In, Hr in Hx.
    by apply bool_decide_eq_true in Hx.
Qed.

End Coverage.

(** ** The further theorems at examples *)

Lemma fallback_ignores_other_columns_witness :
  returned (call (validate_telco_data parse_decimal None) null_customerID)
  = returned (call (validate_telco_data parse_decimal None) scenario_1).
Proof.
  apply (fallback_ignores_other_columns parse_decimal scenario_1 "customerID" [VNone]).
  - apply has_required_columns_complete. by vm_compute.
  - apply (bool_decide_unpack _). by vm_compute.
Defined.

Lemma fallback_rows_compose_witness :
  ∃ passed failed passed1 failed1 passed2 failed2,
    returned (call (validate_telco_data parse_decimal None) two_rows)
    = Some (passed, failed)
    ∧ returned (call (validate_telco_data parse_decimal None) scenario_2)
      = Some (passed1, failed1)
    ∧ returned (call (validate_telco_data parse_decimal None) scenario_1)
      = Some (passed2, failed2)
    ∧ (∀ id, id ∈ failed ↔ id ∈ failed1 ∨ id ∈ failed2)
    ∧ passed = passed1 && passed2.
Proof.
  apply (fallback_rows_compose parse_decimal two_rows scenario_2 scenario_1).
  - apply has_required_columns_complete. by vm_compute.
  - apply has_required_columns_complete. by vm_compute.
  - apply has_required_columns_complete. by vm_compute.
  - intros c Hc. unfold checked_columns in Hc. rewrite !elem_of_cons in Hc.
    repeat (destruct Hc as [-> | Hc]; [by vm_compute |]).
    by apply elem_of_nil in Hc.
Defined.

Lemma fallback_without_rows_passes_witness :
  returned (call (validate_telco_data parse_decimal None) no_rows) = Some (true, []).
Proof.
  apply (fallback_without_rows_passes parse_decimal no_rows).
  - apply has_required_columns_complete. by vm_compute.
  - intros c Hc. unfold checked_columns in Hc. rewrite !elem_of_cons in Hc.
    repeat (destruct Hc as [-> | Hc]; [by vm_compute |]).
    by apply elem_of_nil in Hc.
Defined.

Lemma fallback_leaves_numbers_witness :
  forallb is_number (col text_charges "TotalCharges") = false
  ∧ forallb is_number
      (col (frame_after (call (validate_telco_data parse_decimal None) text_charges))
         "TotalCharges")
    = true.
Proof.
  split; [by vm_compute |].
  apply (fallback_leaves_numbers parse_decimal text_charges "TotalCharges").
  - apply has_required_columns_complete. by vm_compute.
  - in_list.
Defined.


Lemma missing_columns_are_logged_witness :
  events_after (call (validate_telco_data parse_decimal None) scenario_4)
  = [ Stdout "⚠️ Great Expectations not available; running simplified pandas checks.";
      Stdout ("❌ Missing required columns: " +:+ py_list (missing_columns (dom scenario_4))) ]
  ∧ missing_columns (dom scenario_4) ≠ []
  ∧ missing_columns (dom scenario_4) `sublist_of` required_columns
  ∧ ∀ c, c ∈ missing_columns (dom scenario_4)
         ↔ c ∈ required_columns ∧ scenario_4 !! c = None.
Proof.
  apply (missing_columns_are_logged parse_decimal scenario_4).
  intros H%has_required_columns_complete. vm_compute in H. discriminate H.
Defined.

Lemma modes_share_no_identifier_witness :
  ∃ passed failed,
    returned (call (validate_telco_data parse_decimal (Some spec_ge)) scenario_2)
    = Some (passed, failed)
    ∧ ∀ id, id ∈ failed → id ∈ expectation_types ∧ id ∉ fallback_identifiers.
Proof.
  apply (modes_share_no_identifier parse_decimal spec_ge scenario_2).
  by vm_compute.
Defined.

Example scenario_4_log :
  events_after (call (validate_telco_data parse_decimal None) scenario_4)
  = [ Stdout "⚠️ Great Expectations not available; running simplified pandas checks.";
      Stdout "❌ Missing required columns: ['Contract']" ].
Proof. by vm_compute. Qed.
